(** * occlude: the OPAQUE password-authenticated key exchange

    A shallow embedding of the Go package [occlude] and the properties its
    specification states about it.

    Conventions of the embedding.
    - A byte slice or byte array is a [list byte]; [append(a, b...)] is [a ++ b].
    - A call returns a [result]: [Ok v] for a normal return with a nil error,
      [Err e] for a non-nil error, [Panic] for a run-time panic (a nil pointer
      dereference, or an explicit [panic]).
    - A method with a pointer receiver is a computation of the state monad
      [M S] over the receiver's struct.
    - The packages the code imports (ristretto255, sha3, argon2, blake2b, hkdf,
      aes, encoding/json) are the fields of two interfaces, [Ristretto255] and
      [Primitives], with the laws of their documentation.
    - [randomScalar] reads 64 bytes of entropy; every operation that calls it
      takes the bytes read as an argument, in the order of the calls.
    - A pointer that the code leaves nil somewhere ([Client.xu], [Client.r],
      [pendingRegistration.ps]) is an [option]; every other pointer is the
      value it points to: a call with a nil argument, or with a message one
      of whose elements is nil, panics in the code and has no counterpart
      here. *)

From Stdlib Require Import ZArith List Lia.
From Stdlib Require Import Strings.Byte Strings.String.
From stdpp Require Import base option strings gmap list.

Local Open Scope Z_scope.

(** ** Bytes *)

Abbreviation bytes := (list byte).

#[global] Instance byte_eq_dec : EqDecision byte := Byte.byte_eq_dec.

(** [[]byte(s)] for a Go string [s]. *)
Definition bytes_of_string (s : string) : bytes := list_byte_of_string s.

(** [make([]byte, n)]: n zero bytes. *)
Definition make (n : nat) : bytes := repeat x00 n.

Definition xor8 (a b : bool * (bool * (bool * (bool * (bool * (bool * (bool * bool)))))))
  : bool * (bool * (bool * (bool * (bool * (bool * (bool * bool)))))) :=
  let '(a0, (a1, (a2, (a3, (a4, (a5, (a6, a7))))))) := a in
  let '(b0, (b1, (b2, (b3, (b4, (b5, (b6, b7))))))) := b in
  (xorb a0 b0, (xorb a1 b1, (xorb a2 b2, (xorb a3 b3,
    (xorb a4 b4, (xorb a5 b5, (xorb a6 b6, xorb a7 b7))))))).

(** The [^] of two bytes. *)
Definition byte_xor (a b : byte) : byte :=
  Byte.of_bits (xor8 (Byte.to_bits a) (Byte.to_bits b)).

(** [subtle.XORBytes]-style loop of a stream cipher: [dst[i] = src[i] ^ ks[i]]. *)
Fixpoint xor_bytes (src ks : bytes) : bytes :=
  match src, ks with
  | a :: src', k :: ks' => byte_xor a k :: xor_bytes src' ks'
  | _, _ => []
  end.

(** [subtle.ConstantTimeCompare]: 1 when the slices are equal, 0 otherwise
    (also when the lengths differ). *)
Definition ConstantTimeCompare (x y : bytes) : Z :=
  if bool_decide (x = y) then 1 else 0.

(** ** Errors, results, and the state monad of a method *)

Inductive error : Type :=
  | errorString (msg : string)          (* errors.New(msg) *)
  | aes_KeySizeError (n : nat)          (* crypto/aes: invalid key size n *)
  | blake2b_errKeySize                  (* blake2b: invalid key size *)
  | json_UnmarshalError                 (* any error of encoding/json's decoder *)
  | errInvalidElementEncoding           (* ristretto255: Element.Decode failed *)
  | errInvalidScalarEncoding.           (* ristretto255: Scalar.Decode failed *)

Inductive result (A : Type) : Type :=
  | Ok (a : A)
  | Err (e : error)
  | Panic.
Arguments Ok {A} a.
Arguments Err {A} e.
Arguments Panic {A}.

Definition rbind {A B} (r : result A) (k : A -> result B) : result B :=
  match r with
  | Ok a => k a
  | Err e => Err e
  | Panic => Panic
  end.

(** Reading through a pointer: a nil pointer panics. *)
Definition deref {A} (p : option A) : result A :=
  match p with
  | Some a => Ok a
  | None => Panic
  end.

Notation "'let?' x ':=' c 'in' k" := (rbind c (fun x => k))
  (at level 10, x pattern, c at level 100, k at level 200).

Definition M (S A : Type) : Type := S -> S * result A.

Definition mreturn {S A} (a : A) : M S A := fun s => (s, Ok a).
Definition mthrow {S A} (e : error) : M S A := fun s => (s, Err e).
Definition mlift {S A} (r : result A) : M S A := fun s => (s, r).
Definition mget {S} : M S S := fun s => (s, Ok s).
Definition mmodify {S} (f : S -> S) : M S unit := fun s => (f s, Ok tt).
(** [defer f()]: [f] runs when the rest of the method, [c], returns. *)
Definition mdefer {S A} (f : S -> S) (c : M S A) : M S A :=
  fun s => let '(s', a) := c s in (f s', a).
Definition mbind {S A B} (c : M S A) (k : A -> M S B) : M S B :=
  fun s =>
    match c s with
    | (s', Ok a) => k a s'
    | (s', Err e) => (s', Err e)
    | (s', Panic) => (s', Panic)
    end.

Notation "'let!' x ':=' c 'in' k" := (mbind c (fun x => k))
  (at level 10, x pattern, c at level 100, k at level 200).

(** ** The imported packages *)

(** [github.com/gtank/ristretto255]: a group of prime order, its scalar field,
    and the canonical 32-byte encodings of both. [Scalar_Multiply],
    [Scalar_Zero] and [Scalar_One] only serve to state the laws. *)
Class Ristretto255 : Type := {
  Scalar : Type;
  Element : Type;
  Scalar_FromUniformBytes : bytes -> Scalar;
  Element_FromUniformBytes : bytes -> Element;
  Scalar_Zero : Scalar;
  Scalar_One : Scalar;
  Scalar_Multiply : Scalar -> Scalar -> Scalar;
  Scalar_Invert : Scalar -> Scalar;
  ScalarBaseMult : Scalar -> Element;
  ScalarMult : Scalar -> Element -> Element;
  Scalar_Encode : Scalar -> bytes;
  Element_Encode : Element -> bytes;
  Scalar_Decode : bytes -> option Scalar;
  Element_Decode : bytes -> option Element;

  Scalar_Multiply_comm : forall a b, Scalar_Multiply a b = Scalar_Multiply b a;
  Scalar_Multiply_assoc : forall a b c,
    Scalar_Multiply a (Scalar_Multiply b c) = Scalar_Multiply (Scalar_Multiply a b) c;
  Scalar_Invert_l : forall a, a <> Scalar_Zero ->
    Scalar_Multiply (Scalar_Invert a) a = Scalar_One;
  ScalarMult_One : forall P, ScalarMult Scalar_One P = P;
  ScalarMult_ScalarMult : forall a b P,
    ScalarMult a (ScalarMult b P) = ScalarMult (Scalar_Multiply a b) P;
  ScalarMult_ScalarBaseMult : forall a b,
    ScalarMult a (ScalarBaseMult b) = ScalarBaseMult (Scalar_Multiply a b);
  Scalar_Encode_length : forall a, length (Scalar_Encode a) = 32%nat;
  Element_Encode_length : forall P, length (Element_Encode P) = 32%nat;
  Scalar_Decode_Encode : forall a, Scalar_Decode (Scalar_Encode a) = Some a;
  Element_Decode_Encode : forall P, Element_Decode (Element_Encode P) = Some P
}.

(** The anonymous struct of [MarshalJSON] and [UnmarshalJSON]: three byte
    slices under the keys "pu", "Pu" and "Ps". *)
Module encoded.
Record t : Type := mk { Puscalar : bytes; Pu : bytes; Ps : bytes }.
End encoded.

(** The hash functions, key derivation functions, the block cipher and the
    JSON codec of the anonymous struct.
    - [hkdf_sha3_512 secret salt info n]: the first [n] bytes that the reader
      [hkdf.New(sha3.New512, secret, salt, info)] yields.
    - [aes_ctr_keystream key iv n]: the first [n] bytes of the key stream of
      [cipher.NewCTR(block, iv)] for the AES block of [key].
    - [json_Unmarshal data]: [json.Unmarshal(data, &encoded)] for a pointer
      [encoded] to the struct: [None] is an error; [Some None] is the JSON
      literal null, which sets the pointer to nil; [Some (Some e)] fills the
      struct. *)
Class Primitives : Type := {
  sha3_Sum512 : bytes -> bytes;
  sha3_Sum256 : bytes -> bytes;
  argon2_IDKey : bytes -> bytes -> Z -> Z -> Z -> Z -> bytes;
  blake2b_256 : bytes -> bytes -> bytes;
  hmac_sha3_256 : bytes -> bytes -> bytes;
  hkdf_sha3_512 : bytes -> bytes -> bytes -> nat -> bytes;
  aes_ctr_keystream : bytes -> bytes -> nat -> bytes;
  json_Marshal : encoded.t -> bytes;
  json_Unmarshal : bytes -> option (option encoded.t);

  sha3_Sum256_length : forall x, length (sha3_Sum256 x) = 32%nat;
  blake2b_256_length : forall k x, length (blake2b_256 k x) = 32%nat;
  hmac_sha3_256_length : forall k x, length (hmac_sha3_256 k x) = 32%nat;
  hkdf_sha3_512_length : forall secret salt info n,
    (n <= 255 * 64)%nat -> length (hkdf_sha3_512 secret salt info n) = n;
  aes_ctr_keystream_length : forall key iv n,
    length (aes_ctr_keystream key iv n) = n;
  argon2_IDKey_length : forall password salt time memory threads keyLen,
    length (argon2_IDKey password salt time memory threads keyLen) = Z.to_nat keyLen;
  json_Marshal_nonempty : forall e, json_Marshal e <> [];
  json_Unmarshal_Marshal : forall e,
    length (encoded.Puscalar e) = 32%nat ->
    length (encoded.Pu e) = 32%nat ->
    length (encoded.Ps e) = 32%nat ->
    json_Unmarshal (json_Marshal e) = Some (Some e)
}.

(** ** The structs of pake.go *)

Module authCiphertext.
Record t : Type := mk { Tag : bytes; Ciphertext : bytes }.
End authCiphertext.

Module pendingRegistration.
Record t `{Ristretto255} : Type :=
  mk { ks : Scalar; Ps : Element; ps : option Scalar }.
Arguments mk {_} _ _ _.
End pendingRegistration.

Module Registration.
Record t `{Ristretto255} : Type :=
  mk { ID : string; aci : authCiphertext.t; Pu : Element }.
Arguments mk {_} _ _ _.
End Registration.

Module pwdFile.
Record t `{Ristretto255} : Type :=
  mk { ks : Scalar; ps : option Scalar; Ps : Element; Pu : Element;
       c : authCiphertext.t }.
Arguments mk {_} _ _ _ _ _.
End pwdFile.

Module UsrSession.
Record t `{Ristretto255} : Type :=
  mk { Alpha : Element; Xu : Element; Sid : string }.
Arguments mk {_} _ _ _.
End UsrSession.

Module SvrSession.
Record t `{Ristretto255} : Type :=
  mk { Beta : Element; Xs : Element; fk1 : bytes; c : authCiphertext.t }.
Arguments mk {_} _ _ _ _.
End SvrSession.

Module ciphertextData.
Record t `{Ristretto255} : Type :=
  mk { pu : Scalar; Pu : Element; Ps : Element }.
Arguments mk {_} _ _ _.
End ciphertextData.

Module Server.
Record t `{Ristretto255} : Type :=
  mk { passwordFiles : gmap string pwdFile.t;
       pendingRegistrations : gmap string pendingRegistration.t }.
Arguments mk {_} _ _.
End Server.

Module Client.
Record t `{Ristretto255} : Type :=
  mk { Sid : string; xu : option Scalar; r : option Scalar }.
Arguments mk {_} _ _ _.
End Client.

(** ** The objects of the standard library that the code drives *)

(** A [hash.Hash]: [Write] absorbs data, [Sum(b)] appends the digest of the
    data absorbed so far to [b] and returns the extended slice. *)
Record Hash : Type := mkHash { Hash_digest : bytes -> bytes; Hash_written : bytes }.

Definition Hash_Write (h : Hash) (p : bytes) : Hash :=
  mkHash (Hash_digest h) (Hash_written h ++ p).

Definition Hash_Sum (h : Hash) (b : bytes) : bytes :=
  b ++ Hash_digest h (Hash_written h).

(** A [cipher.Block] of AES and the [cipher.Stream] of its counter mode. *)
Record Block : Type := mkBlock { Block_key : bytes }.
Record Stream : Type := mkCTR { Stream_block : Block; Stream_iv : bytes }.

Definition aes_BlockSize : nat := 16.

Definition aes_NewCipher (key : bytes) : result Block :=
  match length key with
  | 16%nat | 24%nat | 32%nat => Ok (mkBlock key)
  | n => Err (aes_KeySizeError n)
  end.

Definition cipher_NewCTR (block : Block) (iv : bytes) : Stream := mkCTR block iv.

(** The decoding of one field of the envelope plaintext. *)
Definition decoded {A} (e : error) (o : option A) : result A :=
  match o with
  | Some a => Ok a
  | None => Err e
  end.

Section Occlude.
Context `{G : Ristretto255} `{P : Primitives}.

Definition hmac_New (key : bytes) : Hash := mkHash (hmac_sha3_256 key) [].

Definition blake2b_New256 (key : bytes) : result Hash :=
  if (64 <? length key)%nat then Err blake2b_errKeySize
  else Ok (mkHash (blake2b_256 key) []).

(** [ctr.XORKeyStream(dst, src)] on a fresh stream, [dst] as long as [src]. *)
Definition XORKeyStream (ctr : Stream) (src : bytes) : bytes :=
  xor_bytes src
    (aes_ctr_keystream (Block_key (Stream_block ctr)) (Stream_iv ctr) (length src)).

(** *** The helpers of the protocol *)

Definition argonTime : Z := 3.
Definition argonMemory : Z := 100000.

Definition randomScalar (b : bytes) : Scalar := Scalar_FromUniformBytes b.

Definition oprfA (x : bytes) (k : Scalar) : bytes :=
  let hprimex := Element_FromUniformBytes x in
  let hprimex := ScalarMult k hprimex in
  let hash := sha3_Sum512 (x ++ Element_Encode hprimex) in
  let output := argon2_IDKey hash [] argonTime argonMemory 4 32 in
  output.

Definition oprfB (B : Element) (r : option Scalar) (x : bytes) : result bytes :=
  let? r := deref r in
  let rinv := Scalar_Invert r in
  let betarinv := ScalarMult rinv B in
  let hash := sha3_Sum512 (x ++ Element_Encode betarinv) in
  let output := argon2_IDKey hash [] argonTime argonMemory 4 32 in
  Ok output.

(** [prf] panics when [blake2b.New256] refuses the key; writing to a hash
    never fails. *)
Definition prf (k : bytes) (x : bytes) : result bytes :=
  match blake2b_New256 k with
  | Ok b =>
      let b := Hash_Write b x in
      Ok (Hash_Sum b [])
  | _ => Panic
  end.

(** The two reads of 32 bytes are the two halves of the first 64 bytes of
    the reader, which yields 255 * 64 bytes before a read fails; the result
    is the pair (authKey, cipherKey). *)
Definition deriveHKDFKeys (x : bytes) : bytes * bytes :=
  let okm := hkdf_sha3_512 x [] [] 64 in
  let cipherKey := take 32 okm in
  let authKey := take 32 (drop 32 okm) in
  (authKey, cipherKey).

Definition keServer (ps : option Scalar) (xs : Scalar) (Pu Xu : Element)
  : result bytes :=
  let xsPu := ScalarMult xs Pu in
  let? ps := deref ps in
  let psXu := ScalarMult ps Xu in
  let xsXu := ScalarMult xs Xu in
  let sharedSecret := Element_Encode xsPu ++ Element_Encode psXu in
  let sharedSecret := sharedSecret ++ Element_Encode xsXu in
  Ok (sha3_Sum256 sharedSecret).

Definition keUser (pu : Scalar) (xu : option Scalar) (Ps Xs : Element)
  : result bytes :=
  let puXs := ScalarMult pu Xs in
  let? xu := deref xu in
  let xuPs := ScalarMult xu Ps in
  let xuXs := ScalarMult xu Xs in
  let sharedSecret := Element_Encode puXs ++ Element_Encode xuPs in
  let sharedSecret := sharedSecret ++ Element_Encode xuXs in
  Ok (sha3_Sum256 sharedSecret).

(** [clear]: the loop [for i := 0; i < len(x); i++ { x[i] = 0 }] on the
    slice, with the iterations left as fuel; the result is the slice after
    the loop. No function of the package calls it. *)
Fixpoint clear_from (fuel i : nat) (x : bytes) : bytes :=
  match fuel with
  | O => x
  | S fuel' =>
      if (i <? length x)%nat then clear_from fuel' (S i) (<[i := x00]> x) else x
  end.

Definition clear (x : bytes) : bytes := clear_from (length x) 0 x.

(** *** pake.go *)

Definition NewClient (id : string) : Client.t :=
  Client.mk id None None.

Definition Client_NewSession (password : string) (rnd_xu rnd_r : bytes)
  : M Client.t UsrSession.t :=
  let xu := randomScalar rnd_xu in
  let Xu := ScalarBaseMult xu in
  let x := sha3_Sum512 (bytes_of_string password) in
  let Alpha := Element_FromUniformBytes x in
  let r := randomScalar rnd_r in
  let Alpha := ScalarMult r Alpha in
  let! _ := mmodify (fun c => Client.mk (Client.Sid c) (Some xu) (Client.r c)) in
  let! _ := mmodify (fun c => Client.mk (Client.Sid c) (Client.xu c) (Some r)) in
  let! c := mget in
  mreturn (UsrSession.mk Alpha Xu (Client.Sid c)).

Definition NewServer : Server.t := Server.mk ∅ ∅.

Definition Server_NewRegistration (sid : string) (rnd_ks rnd_ps : bytes)
  : M Server.t pendingRegistration.t :=
  let ks := randomScalar rnd_ks in
  let ps := randomScalar rnd_ps in
  let Ps := ScalarBaseMult ps in
  let! _ := mmodify (fun s =>
    Server.mk (Server.passwordFiles s)
      (<[sid := pendingRegistration.mk ks Ps (Some ps)]>
         (Server.pendingRegistrations s))) in
  mreturn (pendingRegistration.mk ks Ps None).

Definition Server_Register (reg : Registration.t) : M Server.t unit :=
  let! s := mget in
  match Server.pendingRegistrations s !! Registration.ID reg with
  | None => mthrow (errorString "no pending registration")
  | Some pendingRegistration =>
      mdefer (fun s =>
        Server.mk (Server.passwordFiles s)
          (delete (Registration.ID reg) (Server.pendingRegistrations s)))
      (let! s := mget in
       match Server.passwordFiles s !! Registration.ID reg with
       | Some _ => mthrow (errorString "user already registered")
       | None =>
           let pf := pwdFile.mk
             (pendingRegistration.ks pendingRegistration)
             (pendingRegistration.ps pendingRegistration)
             (pendingRegistration.Ps pendingRegistration)
             (Registration.Pu reg)
             (Registration.aci reg) in
           let! _ := mmodify (fun s =>
             Server.mk (<[Registration.ID reg := pf]> (Server.passwordFiles s))
               (Server.pendingRegistrations s)) in
           mreturn tt
       end)
  end.

Definition ciphertextData_MarshalJSON (c : ciphertextData.t) : result bytes :=
  Ok (json_Marshal (encoded.mk
    (Scalar_Encode (ciphertextData.pu c))
    (Element_Encode (ciphertextData.Pu c))
    (Element_Encode (ciphertextData.Ps c)))).

(** [new(ristretto.Scalar).Decode(x)]: the call panics when [x] is not 32
    bytes long, and returns an error when the 32 bytes are not the
    canonical encoding of a scalar. *)
Definition Scalar_Decode_into (x : bytes) : result Scalar :=
  if (length x =? 32)%nat
  then decoded errInvalidScalarEncoding (Scalar_Decode x)
  else Panic.

Definition ciphertextData_UnmarshalJSON (data : bytes) : result ciphertextData.t :=
  match json_Unmarshal data with
  | None => Err json_UnmarshalError
  | Some encoded =>
      let? e := deref encoded in
      let? Pu := decoded errInvalidElementEncoding (Element_Decode (encoded.Pu e)) in
      let? pu := Scalar_Decode_into (encoded.Puscalar e) in
      let? Ps := decoded errInvalidElementEncoding (Element_Decode (encoded.Ps e)) in
      Ok (ciphertextData.mk pu Pu Ps)
  end.

Definition Client_NewRegistration (sinfo : pendingRegistration.t)
    (username : string) (password : string) (rnd_pu : bytes)
  : M Client.t Registration.t :=
  let pu := randomScalar rnd_pu in
  let Pu := ScalarBaseMult pu in
  let x := sha3_Sum512 (bytes_of_string password) in
  let rw := oprfA x (pendingRegistration.ks sinfo) in
  let '(hmacKey, cipherKey) := deriveHKDFKeys rw in
  let! block := mlift (aes_NewCipher cipherKey) in
  let iv := make aes_BlockSize in
  let ctr := cipher_NewCTR block iv in
  let authHmac := hmac_New hmacKey in
  let! toencrypt := mlift (ciphertextData_MarshalJSON
    (ciphertextData.mk pu Pu (pendingRegistration.Ps sinfo))) in
  let ctext := XORKeyStream ctr toencrypt in
  let tag := Hash_Sum authHmac ctext in
  let aci := authCiphertext.mk tag ctext in
  mreturn (Registration.mk username aci Pu).

Definition Server_NewSession (session : UsrSession.t) (rnd_xs : bytes)
  : M Server.t (SvrSession.t * bytes) :=
  let! s := mget in
  match Server.passwordFiles s !! UsrSession.Sid session with
  | None => mthrow (errorString "no such sid")
  | Some pf =>
      let xs := randomScalar rnd_xs in
      let Xs := ScalarBaseMult xs in
      let beta := ScalarMult (pwdFile.ks pf) (UsrSession.Alpha session) in
      let! K := mlift (keServer (pwdFile.ps pf) xs (pwdFile.Pu pf)
                         (UsrSession.Xu session)) in
      let! SK := mlift (prf K [x00]) in
      let! fk1 := mlift (prf K [x01]) in
      mreturn (SvrSession.mk beta Xs fk1 (pwdFile.c pf), SK)
  end.

Definition Client_SessionKey (session : SvrSession.t) (password : string)
  : M Client.t (bytes * bytes) :=
  let! c := mget in
  let x := sha3_Sum512 (bytes_of_string password) in
  let! rw := mlift (oprfB (SvrSession.Beta session) (Client.r c) x) in
  let '(hmacKey, cipherKey) := deriveHKDFKeys rw in
  let! block := mlift (aes_NewCipher cipherKey) in
  let iv := make aes_BlockSize in
  let ctr := cipher_NewCTR block iv in
  let authHmac := hmac_New hmacKey in
  if negb (ConstantTimeCompare
             (Hash_Sum authHmac (authCiphertext.Ciphertext (SvrSession.c session)))
             (authCiphertext.Tag (SvrSession.c session)) =? 1)
  then mthrow (errorString "invalid hmac tag on server-sent c")
  else
    let caData := XORKeyStream ctr (authCiphertext.Ciphertext (SvrSession.c session)) in
    let! ca := mlift (ciphertextData_UnmarshalJSON caData) in
    let! K := mlift (keUser (ciphertextData.pu ca) (Client.xu c)
                       (ciphertextData.Ps ca) (SvrSession.Xs session)) in
    let! SK := mlift (prf K [x00]) in
    let! fk1 := mlift (prf K [x01]) in
    if negb (ConstantTimeCompare fk1 (SvrSession.fk1 session) =? 1)
    then mthrow (errorString "server authentication failed")
    else
      let! fk2 := mlift (prf K [x02]) in
      mreturn (SK, fk2).

End Occlude.

#[global] Arguments deriveHKDFKeys : simpl never.
#[global] Arguments oprfA : simpl never.
#[global] Arguments XORKeyStream : simpl never.
#[global] Arguments prf : simpl never.
#[global] Arguments keUser : simpl never.
#[global] Arguments keServer : simpl never.

(** ** A small model of the two interfaces

    The group of order 5 with its scalar field, and byte-shuffling stand-ins
    for the hash functions: the laws of [Ristretto255] and [Primitives] hold
    of them, and every operation of the package can be run on them. *)
Module Toy.

Inductive Z5 : Type := z0 | z1 | z2 | z3 | z4.

Definition to_nat (a : Z5) : nat :=
  match a with z0 => 0 | z1 => 1 | z2 => 2 | z3 => 3 | z4 => 4 end.

Definition of_nat (n : nat) : Z5 :=
  match (n mod 5)%nat with
  | 0%nat => z0 | 1%nat => z1 | 2%nat => z2 | 3%nat => z3 | _ => z4
  end.

Definition mul (a b : Z5) : Z5 := of_nat (to_nat a * to_nat b).

Definition inv (a : Z5) : Z5 :=
  match a with z0 => z0 | z1 => z1 | z2 => z3 | z3 => z2 | z4 => z4 end.

Definition from_bytes (b : bytes) : Z5 :=
  of_nat (foldr (fun x n => (Byte.to_nat x + n)%nat) 0%nat b).

Definition encode (a : Z5) : bytes :=
  match a with
  | z0 => x00 | z1 => x01 | z2 => x02 | z3 => x03 | z4 => x04
  end :: make 31.

Definition decode (l : bytes) : option Z5 :=
  match l with
  | b :: t =>
      if bool_decide (t = make 31) then
        match b with
        | x00 => Some z0 | x01 => Some z1 | x02 => Some z2
        | x03 => Some z3 | x04 => Some z4 | _ => None
        end
      else None
  | [] => None
  end.

(** [n] bytes out of [x]: [x] cut or padded with zeroes. *)
Definition squeeze (n : nat) (x : bytes) : bytes := take n (x ++ make n).

Definition marshal (e : encoded.t) : bytes :=
  "{"%byte :: encoded.Puscalar e ++ encoded.Pu e ++ encoded.Ps e.

Definition unmarshal (data : bytes) : option (option encoded.t) :=
  if bool_decide (data = bytes_of_string "null") then Some None
  else
    match data with
    | "{"%byte :: d =>
        if (length d =? 96)%nat
        then Some (Some (encoded.mk (take 32 d) (take 32 (drop 32 d)) (drop 64 d)))
        else None
    | _ => None
    end.

Lemma mul_comm a b : mul a b = mul b a.
Proof. destruct a, b; reflexivity. Qed.

Lemma mul_assoc a b c : mul a (mul b c) = mul (mul a b) c.
Proof. destruct a, b, c; reflexivity. Qed.

Lemma inv_l a : a <> z0 -> mul (inv a) a = z1.
Proof. destruct a; intros Ha; try reflexivity. contradiction. Qed.

Lemma mul_1_l a : mul z1 a = a.
Proof. destruct a; reflexivity. Qed.

Lemma encode_length a : length (encode a) = 32%nat.
Proof. destruct a; reflexivity. Qed.

Lemma decode_encode a : decode (encode a) = Some a.
Proof. destruct a; reflexivity. Qed.

Lemma squeeze_length n x : length (squeeze n x) = n.
Proof.
  unfold squeeze, make.
  rewrite length_take, length_app, repeat_length. lia.
Qed.

Lemma marshal_nonempty e : marshal e <> [].
Proof. discriminate. Qed.

Lemma unmarshal_marshal e :
  length (encoded.Puscalar e) = 32%nat ->
  length (encoded.Pu e) = 32%nat ->
  length (encoded.Ps e) = 32%nat ->
  unmarshal (marshal e) = Some (Some e).
Proof.
  destruct e as [a b c]; simpl; intros Ha Hb Hc.
  unfold unmarshal, marshal; simpl.
  assert (Hlen : length (a ++ b ++ c) = 96%nat)
    by (rewrite !length_app; lia).
  rewrite Hlen; simpl.
  do 2 f_equal.
  assert (H1 : take 32 (a ++ b ++ c) = a)
    by (rewrite take_app_length'; auto).
  assert (H2 : drop 32 (a ++ b ++ c) = b ++ c)
    by (rewrite drop_app_length'; auto).
  assert (H3 : drop 64 (a ++ b ++ c) = c).
  { replace 64%nat with (32 + 32)%nat by reflexivity.
    rewrite <- drop_drop, H2, drop_app_length'; auto. }
  rewrite H1, H2, H3, take_app_length'; auto.
Qed.

Definition group : Ristretto255 := {|
  Scalar := Z5;
  Element := Z5;
  Scalar_FromUniformBytes := from_bytes;
  Element_FromUniformBytes := from_bytes;
  Scalar_Zero := z0;
  Scalar_One := z1;
  Scalar_Multiply := mul;
  Scalar_Invert := inv;
  ScalarBaseMult := fun s => s;
  ScalarMult := mul;
  Scalar_Encode := encode;
  Element_Encode := encode;
  Scalar_Decode := decode;
  Element_Decode := decode;
  Scalar_Multiply_comm := mul_comm;
  Scalar_Multiply_assoc := mul_assoc;
  Scalar_Invert_l := inv_l;
  ScalarMult_One := mul_1_l;
  ScalarMult_ScalarMult := mul_assoc;
  ScalarMult_ScalarBaseMult := fun a b => eq_refl;
  Scalar_Encode_length := encode_length;
  Element_Encode_length := encode_length;
  Scalar_Decode_Encode := decode_encode;
  Element_Decode_Encode := decode_encode
|}.

Definition primitives : Primitives := {|
  sha3_Sum512 := squeeze 64;
  sha3_Sum256 := squeeze 32;
  argon2_IDKey := fun password salt _ _ _ keyLen =>
    squeeze (Z.to_nat keyLen) (password ++ salt);
  blake2b_256 := fun k x => squeeze 32 (x ++ k);
  hmac_sha3_256 := fun k x => squeeze 32 (x ++ k);
  hkdf_sha3_512 := fun secret salt info n => squeeze n (secret ++ salt ++ info);
  aes_ctr_keystream := fun key iv n => squeeze n (key ++ iv);
  json_Marshal := marshal;
  json_Unmarshal := unmarshal;
  sha3_Sum256_length := squeeze_length 32;
  blake2b_256_length := fun k x => squeeze_length 32 (x ++ k);
  hmac_sha3_256_length := fun k x => squeeze_length 32 (x ++ k);
  hkdf_sha3_512_length := fun secret salt info n _ =>
    squeeze_length n (secret ++ salt ++ info);
  aes_ctr_keystream_length := fun key iv n => squeeze_length n (key ++ iv);
  argon2_IDKey_length := fun password salt _ _ _ keyLen =>
    squeeze_length (Z.to_nat keyLen) (password ++ salt);
  json_Marshal_nonempty := marshal_nonempty;
  json_Unmarshal_Marshal := unmarshal_marshal
|}.

End Toy.

(** ** Runs of the protocol, as the tests of the package make them *)

Section Runs.
Context `{G : Ristretto255} `{P : Primitives}.

(** A server and a client, as [TestRegister] and [TestLogin] set them up. *)
Definition World : Type := Server.t * Client.t.

Definition NewWorld (testusername : string) : World :=
  (NewServer, NewClient testusername).

Definition on_server {A} (m : M Server.t A) : M World A :=
  fun w => let '(s, a) := m w.1 in ((s, w.2), a).

Definition on_client {A} (m : M Client.t A) : M World A :=
  fun w => let '(c, a) := m w.2 in ((w.1, c), a).

(** The three calls of [TestRegister]. *)
Definition register (testusername testpassword : string)
    (rnd_ks rnd_ps rnd_pu : bytes) : M World Registration.t :=
  let! pr := on_server (Server_NewRegistration testusername rnd_ks rnd_ps) in
  let! reg := on_client
    (Client_NewRegistration pr testusername testpassword rnd_pu) in
  let! _ := on_server (Server_Register reg) in
  mreturn reg.

(** The three calls that end [TestLogin]; [network] is what happens to the
    server's message on its way to the client (nothing, in the test). The
    result is the server's session key and the two keys of the client. *)
Definition login (testpassword : string) (rnd_xu rnd_r rnd_xs : bytes)
    (network : SvrSession.t -> SvrSession.t)
  : M World (bytes * (bytes * bytes)) :=
  let! sess := on_client (Client_NewSession testpassword rnd_xu rnd_r) in
  let! (svrsess, sessionKey) := on_server (Server_NewSession sess rnd_xs) in
  let! keys := on_client
    (Client_SessionKey (network svrsess) testpassword) in
  mreturn (sessionKey, keys).

End Runs.

(** Scenario 1 of the specification on the small model, and three ways to
    spoil the server's message before the client reads it. *)
Module Scenario.
Section Scenario.
Local Existing Instances Toy.group Toy.primitives.

Definition sid : string := "alice".
Definition password : string := "correct horse battery staple".

(** The entropy that the six calls of [randomScalar] read. *)
Definition rnd_ks : bytes := [x02].
Definition rnd_ps : bytes := [x03].
Definition rnd_pu : bytes := [x04].
Definition rnd_xu : bytes := [x01].
Definition rnd_r : bytes := [x02].
Definition rnd_xs : bytes := [x03].

Definition registered : M World Registration.t :=
  register sid password rnd_ks rnd_ps rnd_pu.

Definition logged_in (network : SvrSession.t -> SvrSession.t)
  : M World (bytes * (bytes * bytes)) :=
  let! _ := registered in
  login password rnd_xu rnd_r rnd_xs network.

Definition untouched (m : SvrSession.t) : SvrSession.t := m.

Definition cut_tag (m : SvrSession.t) : SvrSession.t :=
  SvrSession.mk (SvrSession.Beta m) (SvrSession.Xs m) (SvrSession.fk1 m)
    (authCiphertext.mk [] (authCiphertext.Ciphertext (SvrSession.c m))).

(** Another ciphertext, with the tag that [Hash_Sum] gives it: the one
    byte, then the last 32 bytes of the old tag. *)
Definition swap_envelope (m : SvrSession.t) : SvrSession.t :=
  let c := SvrSession.c m in
  SvrSession.mk (SvrSession.Beta m) (SvrSession.Xs m) (SvrSession.fk1 m)
    (authCiphertext.mk
       (x00 :: drop (length (authCiphertext.Ciphertext c))
                 (authCiphertext.Tag c))
       [x00]).

Definition cut_fk1 (m : SvrSession.t) : SvrSession.t :=
  SvrSession.mk (SvrSession.Beta m) (SvrSession.Xs m) [] (SvrSession.c m).

(** Scenario 3: the registration message is finalized a second time. *)
Definition finalized_twice : M World unit :=
  let! reg := registered in
  on_server (Server_Register reg).

(** A client after [NewSession], and a message for it. *)
Definition client : Client.t :=
  Client.mk sid (Some (randomScalar rnd_xu)) (Some (randomScalar rnd_r)).

Definition message : SvrSession.t :=
  SvrSession.mk (ScalarBaseMult (randomScalar rnd_ks))
    (ScalarBaseMult (randomScalar rnd_xs)) [] (authCiphertext.mk [] []).

End Scenario.
End Scenario.

(** ** The invariant of the server, and data for more runs *)

Section Invariant.
Context `{G : Ristretto255}.

(** A static key pair as the server stores it: the private scalar is there,
    and the public element is its multiple of the base point. *)
Definition key_pair (ps : option Scalar) (Ps : Element) : Prop :=
  exists p, ps = Some p /\ Ps = ScalarBaseMult p.

(** Every record of the two maps of a server holds a key pair. *)
Definition Server_wf (s : Server.t) : Prop :=
  (forall id pf, Server.passwordFiles s !! id = Some pf ->
     key_pair (pwdFile.ps pf) (pwdFile.Ps pf)) /\
  (forall id pr, Server.pendingRegistrations s !! id = Some pr ->
     key_pair (pendingRegistration.ps pr) (pendingRegistration.Ps pr)).

End Invariant.

(** Messages and servers on the small model. *)
Module Cases.
Section Cases.
Local Existing Instances Toy.group Toy.primitives.
Import Scenario.

(** A registration message for [sid] with an empty envelope. *)
Definition bare_reg : Registration.t :=
  Registration.mk sid (authCiphertext.mk [] [])
    (ScalarBaseMult (randomScalar rnd_pu)).

(** A server on which [sid] is registered and has begun again. *)
Definition busy_server : Server.t :=
  Server.mk
    {[ sid := pwdFile.mk (randomScalar rnd_ks) (Some (randomScalar rnd_ps))
                (ScalarBaseMult (randomScalar rnd_ps))
                (ScalarBaseMult (randomScalar rnd_pu))
                (authCiphertext.mk [] []) ]}
    {[ sid := pendingRegistration.mk (randomScalar rnd_xs)
                (ScalarBaseMult (randomScalar rnd_xu))
                (Some (randomScalar rnd_xu)) ]}.

(** What [oprfB] gives [client] on [message] and [password], and the keys
    derived from it. *)
Definition rw : bytes :=
  argon2_IDKey
    (sha3_Sum512
       (sha3_Sum512 (bytes_of_string password) ++
        Element_Encode (ScalarMult (Scalar_Invert (randomScalar rnd_r))
                          (SvrSession.Beta message))))
    [] argonTime argonMemory 4 32.

(** [message] with the envelope that [ct] gets under the keys of [rw]. *)
Definition enveloped (ct : bytes) : SvrSession.t :=
  SvrSession.mk (SvrSession.Beta message) (SvrSession.Xs message)
    (SvrSession.fk1 message)
    (authCiphertext.mk (ct ++ hmac_sha3_256 (deriveHKDFKeys rw).1 []) ct).

(** The encryption of the JSON literal null under the keys of [rw]. *)
Definition null_ciphertext : bytes :=
  XORKeyStream
    (cipher_NewCTR (mkBlock (deriveHKDFKeys rw).2) (make aes_BlockSize))
    (bytes_of_string "null").

(** A login request of [sid]. *)
Definition request : UsrSession.t :=
  UsrSession.mk
    (ScalarMult (randomScalar rnd_r)
       (Element_FromUniformBytes (sha3_Sum512 (bytes_of_string password))))
    (ScalarBaseMult (randomScalar rnd_xu)) sid.

End Cases.
End Cases.

(** ** Properties of the helpers *)

Lemma byte_xor_cancel (a k : byte) : byte_xor (byte_xor a k) k = a.
Proof.
  unfold byte_xor. rewrite Byte.to_bits_of_bits.
  rewrite <- (Byte.of_bits_to_bits a) at 2. f_equal.
  destruct (Byte.to_bits a) as (a0 & a1 & a2 & a3 & a4 & a5 & a6 & a7).
  destruct (Byte.to_bits k) as (k0 & k1 & k2 & k3 & k4 & k5 & k6 & k7).
  simpl. now rewrite !xorb_assoc, !xorb_nilpotent, !xorb_false_r.
Qed.

Lemma xor_bytes_length (src ks : bytes) :
  (length src <= length ks)%nat -> length (xor_bytes src ks) = length src.
Proof.
  revert ks. induction src as [|a src IH]; intros [|k ks]; simpl; intros Hle;
    try reflexivity; try lia.
  rewrite IH; [reflexivity | lia].
Qed.

Lemma xor_bytes_cancel (src ks : bytes) :
  (length src <= length ks)%nat -> xor_bytes (xor_bytes src ks) ks = src.
Proof.
  revert ks. induction src as [|a src IH]; intros [|k ks]; simpl; intros Hle;
    try reflexivity; try lia.
  rewrite byte_xor_cancel, IH; [reflexivity | lia].
Qed.

Lemma clear_from_zeroes (fuel i : nat) (x : bytes) :
  (i + fuel = length x)%nat ->
  clear_from fuel i x = take i x ++ repeat x00 fuel.
Proof.
  revert i x. induction fuel as [|fuel IH]; intros i x Hlen; simpl.
  - rewrite take_ge by lia. now rewrite app_nil_r.
  - destruct (Nat.ltb_spec i (length x)) as [Hi|Hi]; [|lia].
    rewrite IH by (rewrite length_insert; lia).
    rewrite (take_S_r _ _ x00) by (apply list_lookup_insert_eq; lia).
    rewrite take_insert_ge by lia.
    now rewrite <- app_assoc.
Qed.

(** X14. [clear] overwrites every byte of the slice with zero and keeps
    its length. *)
Lemma clear_zeroes (x : bytes) : clear x = repeat x00 (length x).
Proof. unfold clear. now rewrite clear_from_zeroes. Qed.

Lemma ConstantTimeCompare_refl (x : bytes) : ConstantTimeCompare x x = 1.
Proof. unfold ConstantTimeCompare. now rewrite bool_decide_eq_true_2. Qed.

Lemma ConstantTimeCompare_eq (x y : bytes) :
  x = y -> ConstantTimeCompare x y = 1.
Proof. intros ->. apply ConstantTimeCompare_refl. Qed.

Lemma ConstantTimeCompare_ne (x y : bytes) :
  x <> y -> ConstantTimeCompare x y = 0.
Proof.
  intros Hne. unfold ConstantTimeCompare. now rewrite bool_decide_eq_false_2.
Qed.

Lemma aes_NewCipher_32 (key : bytes) :
  length key = 32%nat -> aes_NewCipher key = Ok (mkBlock key).
Proof. intros Hlen. unfold aes_NewCipher. now rewrite Hlen. Qed.

Section Helpers.
Context `{G : Ristretto255} `{P : Primitives}.

Lemma XORKeyStream_length (ctr : Stream) (src : bytes) :
  length (XORKeyStream ctr src) = length src.
Proof.
  unfold XORKeyStream. apply xor_bytes_length.
  now rewrite aes_ctr_keystream_length.
Qed.

(** Decrypting with a fresh stream of the same key and IV undoes the
    encryption. *)
Lemma XORKeyStream_cancel (ctr : Stream) (src : bytes) :
  XORKeyStream ctr (XORKeyStream ctr src) = src.
Proof.
  unfold XORKeyStream at 1. rewrite XORKeyStream_length.
  unfold XORKeyStream. apply xor_bytes_cancel.
  now rewrite aes_ctr_keystream_length.
Qed.

Lemma deriveHKDFKeys_length (x : bytes) :
  length (fst (deriveHKDFKeys x)) = 32%nat /\
  length (snd (deriveHKDFKeys x)) = 32%nat.
Proof.
  unfold deriveHKDFKeys; simpl.
  rewrite !length_take, length_drop, hkdf_sha3_512_length; lia.
Qed.

Lemma prf_Ok (k x : bytes) :
  length k = 32%nat -> prf k x = Ok (blake2b_256 k x).
Proof.
  intros Hk. unfold prf, blake2b_New256. rewrite Hk. reflexivity.
Qed.

Lemma prf_length (k x out : bytes) :
  prf k x = Ok out -> length out = 32%nat.
Proof.
  unfold prf, blake2b_New256.
  destruct (64 <? length k)%nat; [discriminate |].
  intros [= <-]. unfold Hash_Sum, Hash_Write; simpl.
  apply blake2b_256_length.
Qed.

Lemma UnmarshalJSON_MarshalJSON (c : ciphertextData.t) (data : bytes) :
  ciphertextData_MarshalJSON c = Ok data ->
  ciphertextData_UnmarshalJSON data = Ok c.
Proof.
  unfold ciphertextData_MarshalJSON, ciphertextData_UnmarshalJSON.
  intros [= <-].
  rewrite json_Unmarshal_Marshal; simpl;
    auto using Scalar_Encode_length, Element_Encode_length.
  unfold Scalar_Decode_into.
  rewrite !Element_Decode_Encode, Scalar_Encode_length, Scalar_Decode_Encode.
  simpl. now destruct c.
Qed.

(** Unblinding: [(1/r) * (k * (r * E)) = k * E] for a nonzero [r]. *)
Lemma unblind (r k : Scalar) (E : Element) :
  r <> Scalar_Zero ->
  ScalarMult (Scalar_Invert r) (ScalarMult k (ScalarMult r E)) = ScalarMult k E.
Proof.
  intros Hr.
  rewrite (ScalarMult_ScalarMult k r), (Scalar_Multiply_comm k r).
  rewrite ScalarMult_ScalarMult, Scalar_Multiply_assoc.
  rewrite (Scalar_Invert_l r Hr).
  now rewrite <- ScalarMult_ScalarMult, ScalarMult_One.
Qed.

Lemma oprfB_oprfA (x : bytes) (r k : Scalar) :
  r <> Scalar_Zero ->
  oprfB (ScalarMult k (ScalarMult r (Element_FromUniformBytes x))) (Some r) x
  = Ok (oprfA x k).
Proof.
  intros Hr. unfold oprfB, oprfA; simpl. now rewrite unblind.
Qed.

(** The Diffie-Hellman product of two key pairs, from either side. *)
Lemma dh_comm (a b : Scalar) :
  ScalarMult a (ScalarBaseMult b) = ScalarMult b (ScalarBaseMult a).
Proof.
  now rewrite !ScalarMult_ScalarBaseMult, Scalar_Multiply_comm.
Qed.

Lemma keServer_keUser (ps xs pu xu : Scalar) :
  keServer (Some ps) xs (ScalarBaseMult pu) (ScalarBaseMult xu)
  = keUser pu (Some xu) (ScalarBaseMult ps) (ScalarBaseMult xs).
Proof.
  unfold keServer, keUser; simpl.
  now rewrite (dh_comm xs pu), (dh_comm ps xu), (dh_comm xs xu).
Qed.

Lemma keUser_length (pu : Scalar) (xu : option Scalar) (Ps Xs : Element) K :
  keUser pu xu Ps Xs = Ok K -> length K = 32%nat.
Proof.
  unfold keUser. destruct xu; simpl; [|discriminate].
  intros [= <-]. apply sha3_Sum256_length.
Qed.

End Helpers.

(** ** The steps of the protocol *)

Section Steps.
Context `{G : Ristretto255} `{P : Primitives}.

(** What [Client.NewRegistration] returns: it never fails, and leaves the
    client as it was. *)
Lemma Client_NewRegistration_Ok (sinfo : pendingRegistration.t)
    (username password : string) (rnd_pu : bytes) (c : Client.t) :
  let pu := randomScalar rnd_pu in
  let rw := oprfA (sha3_Sum512 (bytes_of_string password))
              (pendingRegistration.ks sinfo) in
  let authKey := fst (deriveHKDFKeys rw) in
  let cipherKey := snd (deriveHKDFKeys rw) in
  let toencrypt := json_Marshal (encoded.mk (Scalar_Encode pu)
    (Element_Encode (ScalarBaseMult pu))
    (Element_Encode (pendingRegistration.Ps sinfo))) in
  let ctext := XORKeyStream
    (cipher_NewCTR (mkBlock cipherKey) (make aes_BlockSize)) toencrypt in
  Client_NewRegistration sinfo username password rnd_pu c
  = (c, Ok (Registration.mk username
              (authCiphertext.mk (ctext ++ hmac_sha3_256 authKey []) ctext)
              (ScalarBaseMult pu))).
Proof.
  intros pu rw authKey cipherKey toencrypt ctext.
  subst authKey cipherKey ctext. unfold Client_NewRegistration.
  fold pu rw.
  destruct (deriveHKDFKeys_length rw) as [_ Hck].
  destruct (deriveHKDFKeys rw) as [hmacKey cipherKey]; simpl in *.
  unfold mbind, mlift. rewrite (aes_NewCipher_32 _ Hck). reflexivity.
Qed.

Lemma Server_Register_Ok (reg : Registration.t) (s : Server.t)
    (pr : pendingRegistration.t) :
  Server.pendingRegistrations s !! Registration.ID reg = Some pr ->
  Server.passwordFiles s !! Registration.ID reg = None ->
  Server_Register reg s =
    (Server.mk
       (<[Registration.ID reg :=
            pwdFile.mk (pendingRegistration.ks pr) (pendingRegistration.ps pr)
              (pendingRegistration.Ps pr) (Registration.Pu reg)
              (Registration.aci reg)]> (Server.passwordFiles s))
       (delete (Registration.ID reg) (Server.pendingRegistrations s)),
     Ok tt).
Proof.
  intros Hpending Hfresh. unfold Server_Register, mbind, mget; simpl.
  rewrite Hpending. unfold mdefer, mbind, mget; simpl.
  rewrite Hfresh. reflexivity.
Qed.

Lemma Server_Register_no_pending (reg : Registration.t) (s : Server.t) :
  Server.pendingRegistrations s !! Registration.ID reg = None ->
  Server_Register reg s = (s, Err (errorString "no pending registration")).
Proof.
  intros Hpending. unfold Server_Register, mbind, mget; simpl.
  now rewrite Hpending.
Qed.

Lemma Server_Register_duplicate (reg : Registration.t) (s : Server.t)
    (pr : pendingRegistration.t) (pf : pwdFile.t) :
  Server.pendingRegistrations s !! Registration.ID reg = Some pr ->
  Server.passwordFiles s !! Registration.ID reg = Some pf ->
  Server_Register reg s =
    (Server.mk (Server.passwordFiles s)
       (delete (Registration.ID reg) (Server.pendingRegistrations s)),
     Err (errorString "user already registered")).
Proof.
  intros Hpending Hpf. unfold Server_Register, mbind, mget; simpl.
  rewrite Hpending. unfold mdefer, mbind, mget; simpl.
  rewrite Hpf. reflexivity.
Qed.

Lemma Server_NewSession_Ok (session : UsrSession.t) (rnd_xs : bytes)
    (s : Server.t) (pf : pwdFile.t) (ps : Scalar) :
  Server.passwordFiles s !! UsrSession.Sid session = Some pf ->
  pwdFile.ps pf = Some ps ->
  let xs := randomScalar rnd_xs in
  exists K,
    keServer (Some ps) xs (pwdFile.Pu pf) (UsrSession.Xu session) = Ok K /\
    Server_NewSession session rnd_xs s =
      (s, Ok (SvrSession.mk
                (ScalarMult (pwdFile.ks pf) (UsrSession.Alpha session))
                (ScalarBaseMult xs) (blake2b_256 K [x01]) (pwdFile.c pf),
              blake2b_256 K [x00])).
Proof.
  intros Hpf Hps xs. eexists. split; [reflexivity |].
  unfold Server_NewSession, mbind, mget; simpl. rewrite Hpf, Hps.
  unfold keServer, mlift; simpl.
  rewrite !prf_Ok by apply sha3_Sum256_length. reflexivity.
Qed.

(** [Client.SessionKey] on the answer of an honest server. *)
Lemma Client_SessionKey_Ok (c : Client.t) (password : string)
    (r xu pu ks xs : Scalar) (Ps : Element) (fk1 : bytes) K :
  Client.r c = Some r ->
  Client.xu c = Some xu ->
  r <> Scalar_Zero ->
  let x := sha3_Sum512 (bytes_of_string password) in
  let rw := oprfA x ks in
  let authKey := fst (deriveHKDFKeys rw) in
  let cipherKey := snd (deriveHKDFKeys rw) in
  let toencrypt := json_Marshal (encoded.mk (Scalar_Encode pu)
    (Element_Encode (ScalarBaseMult pu)) (Element_Encode Ps)) in
  let ctext := XORKeyStream
    (cipher_NewCTR (mkBlock cipherKey) (make aes_BlockSize)) toencrypt in
  let envelope := authCiphertext.mk (ctext ++ hmac_sha3_256 authKey []) ctext in
  let Beta := ScalarMult ks (ScalarMult r (Element_FromUniformBytes x)) in
  keUser pu (Some xu) Ps (ScalarBaseMult xs) = Ok K ->
  fk1 = blake2b_256 K [x01] ->
  Client_SessionKey (SvrSession.mk Beta (ScalarBaseMult xs) fk1 envelope)
    password c
  = (c, Ok (blake2b_256 K [x00], blake2b_256 K [x02])).
Proof.
  intros Hcr Hcxu Hr x rw authKey cipherKey toencrypt ctext envelope Beta HK ->.
  subst envelope Beta ctext authKey cipherKey.
  unfold Client_SessionKey, mbind at 1, mget; cbn.
  rewrite Hcr. fold x. rewrite (oprfB_oprfA x r ks Hr). fold rw.
  unfold mbind at 1, mlift at 1.
  destruct (deriveHKDFKeys_length rw) as [_ Hck].
  destruct (deriveHKDFKeys rw) as [hmacKey cipherKey]; cbn in *.
  unfold mbind at 1, mlift at 1. rewrite (aes_NewCipher_32 _ Hck).
  unfold hmac_New, Hash_Sum; cbn.
  rewrite ConstantTimeCompare_refl; cbn.
  rewrite XORKeyStream_cancel.
  rewrite (UnmarshalJSON_MarshalJSON (ciphertextData.mk pu (ScalarBaseMult pu) Ps))
    by reflexivity.
  unfold mbind, mlift; cbn. rewrite Hcxu, HK.
  pose proof (keUser_length _ _ _ _ _ HK) as HKlen.
  rewrite !prf_Ok by assumption.
  rewrite ConstantTimeCompare_refl; cbn. reflexivity.
Qed.

Lemma Client_SessionKey_nil_r (session : SvrSession.t) (password : string)
    (c : Client.t) :
  Client.r c = None -> Client_SessionKey session password c = (c, Panic).
Proof.
  intros Hr. unfold Client_SessionKey, mbind, mget, mlift.
  rewrite Hr. reflexivity.
Qed.

Lemma UnmarshalJSON_errors (data : bytes) (e : error) :
  ciphertextData_UnmarshalJSON data = Err e ->
  e = json_UnmarshalError \/ e = errInvalidElementEncoding \/
  e = errInvalidScalarEncoding.
Proof.
  unfold ciphertextData_UnmarshalJSON.
  destruct (json_Unmarshal data) as [[enc|]|]; cbn; try discriminate.
  - destruct (Element_Decode (encoded.Pu enc)); cbn; [| intros [= <-]; auto].
    unfold Scalar_Decode_into.
    destruct (length (encoded.Puscalar enc) =? 32)%nat; cbn; [| discriminate].
    destruct (Scalar_Decode (encoded.Puscalar enc)); cbn; [| intros [= <-]; auto].
    destruct (Element_Decode (encoded.Ps enc)); cbn; [discriminate |].
    intros [= <-]; auto.
  - intros [= <-]; auto.
Qed.

End Steps.

(** [Client.SessionKey] up to its first comparison, when the blinding scalar
    is there: [Hrw] is the result of [oprfB], [Hkeys] the derived keys and
    [Hck] the length of the cipher key. *)
Ltac enter_SessionKey Hrw Hkeys Hck :=
  unfold Client_SessionKey, mbind at 1, mget; rewrite Hrw;
  unfold mbind at 1, mlift at 1; rewrite Hkeys;
  unfold mbind at 1, mlift at 1; rewrite (aes_NewCipher_32 _ Hck);
  unfold hmac_New, Hash_Sum; cbn.

(** ** The claims of the specification *)

Section Claims.
Context `{G : Ristretto255} `{P : Primitives}.

(** C1. Honest correctness: from a server that has no password file for
    [sid], and for every password and every entropy with a nonzero
    blinding scalar, the six calls of an honest registration and login all
    return without an error, and the server's [NewSession] and the
    client's [SessionKey] return the same session key, of 32 bytes. *)
Theorem honest_run_agrees (s0 : Server.t) (sid pw : string)
    (rnd_ks rnd_ps rnd_pu rnd_xu rnd_r rnd_xs : bytes) :
  Server.passwordFiles s0 !! sid = None ->
  randomScalar rnd_r <> Scalar_Zero ->
  exists s1 pr c1 reg s2 c2 usr s3 svr SK c3 fk2,
    Server_NewRegistration sid rnd_ks rnd_ps s0 = (s1, Ok pr) /\
    Client_NewRegistration pr sid pw rnd_pu (NewClient sid) = (c1, Ok reg) /\
    Server_Register reg s1 = (s2, Ok tt) /\
    Client_NewSession pw rnd_xu rnd_r c1 = (c2, Ok usr) /\
    Server_NewSession usr rnd_xs s2 = (s3, Ok (svr, SK)) /\
    Client_SessionKey svr pw c2 = (c3, Ok (SK, fk2)) /\
    length SK = 32%nat.
Proof.
  intros Hfresh Hr.
  set (ks := randomScalar rnd_ks). set (ps := randomScalar rnd_ps).
  set (pu := randomScalar rnd_pu). set (xu := randomScalar rnd_xu).
  set (xs := randomScalar rnd_xs).
  set (pr := pendingRegistration.mk ks (ScalarBaseMult ps) None).
  set (s1 := Server.mk (Server.passwordFiles s0)
    (<[sid := pendingRegistration.mk ks (ScalarBaseMult ps) (Some ps)]>
       (Server.pendingRegistrations s0))).
  assert (H1 : Server_NewRegistration sid rnd_ks rnd_ps s0 = (s1, Ok pr))
    by reflexivity.
  pose proof (Client_NewRegistration_Ok pr sid pw rnd_pu (NewClient sid)) as H2.
  cbv zeta in H2.
  match type of H2 with _ = (_, Ok ?v) => set (reg := v) in * end.
  assert (Hpend : Server.pendingRegistrations s1 !! Registration.ID reg
                  = Some (pendingRegistration.mk ks (ScalarBaseMult ps) (Some ps)))
    by apply lookup_insert_eq.
  pose proof (Server_Register_Ok reg s1 _ Hpend Hfresh) as H3.
  match type of H3 with _ = (?v, _) => set (s2 := v) in * end.
  set (c2 := Client.mk sid (Some xu) (Some (randomScalar rnd_r))).
  set (usr := UsrSession.mk
    (ScalarMult (randomScalar rnd_r)
       (Element_FromUniformBytes (sha3_Sum512 (bytes_of_string pw))))
    (ScalarBaseMult xu) sid).
  assert (H4 : Client_NewSession pw rnd_xu rnd_r (NewClient sid) = (c2, Ok usr))
    by reflexivity.
  assert (Hpf : Server.passwordFiles s2 !! UsrSession.Sid usr
                = Some (pwdFile.mk ks (Some ps) (ScalarBaseMult ps)
                          (ScalarBaseMult pu) (Registration.aci reg)))
    by apply lookup_insert_eq.
  destruct (Server_NewSession_Ok usr rnd_xs s2 _ ps Hpf eq_refl)
    as (K & HK & H5).
  cbn in HK. fold xs pu xu in HK. rewrite keServer_keUser in HK.
  pose proof (Client_SessionKey_Ok c2 pw (randomScalar rnd_r) xu pu ks xs
    (ScalarBaseMult ps) _ K eq_refl eq_refl Hr HK eq_refl) as H6.
  exists s1, pr, (NewClient sid), reg, s2, c2, usr, s2.
  eexists. exists (blake2b_256 K [x00]), c2, (blake2b_256 K [x02]).
  repeat split; try eassumption.
  apply blake2b_256_length.
Qed.

(** C2. What the code does where the claim has the tag be the HMAC of the
    ciphertext: [Client.NewRegistration] always returns a registration;
    its ciphertext is the plaintext XORed with the AES-CTR key stream of
    the derived cipher key under the all-zero IV; its tag is the
    ciphertext followed by the HMAC, under the derived authentication key,
    of the empty message. The tag is 32 bytes longer than the ciphertext
    and is never the HMAC of the ciphertext. *)
Theorem registration_tag_is_not_mac_of_ciphertext
    (sinfo : pendingRegistration.t) (username password : string)
    (rnd_pu : bytes) (c : Client.t) :
  let pu := randomScalar rnd_pu in
  let rw := oprfA (sha3_Sum512 (bytes_of_string password))
              (pendingRegistration.ks sinfo) in
  let authKey := (deriveHKDFKeys rw).1 in
  let cipherKey := (deriveHKDFKeys rw).2 in
  let toencrypt := json_Marshal (encoded.mk (Scalar_Encode pu)
    (Element_Encode (ScalarBaseMult pu))
    (Element_Encode (pendingRegistration.Ps sinfo))) in
  exists reg,
    Client_NewRegistration sinfo username password rnd_pu c = (c, Ok reg) /\
    let ctext := authCiphertext.Ciphertext (Registration.aci reg) in
    let tag := authCiphertext.Tag (Registration.aci reg) in
    ctext = xor_bytes toencrypt
              (aes_ctr_keystream cipherKey (make 16) (length toencrypt)) /\
    tag = ctext ++ hmac_sha3_256 authKey [] /\
    length tag = (length ctext + 32)%nat /\
    tag <> hmac_sha3_256 authKey ctext.
Proof.
  intros pu rw authKey cipherKey toencrypt.
  eexists. split; [apply Client_NewRegistration_Ok |].
  cbn. fold pu rw authKey cipherKey toencrypt.
  set (ctext := XORKeyStream _ toencrypt).
  assert (Hlen : length (ctext ++ hmac_sha3_256 authKey [])
                 = (length ctext + 32)%nat)
    by now rewrite length_app, hmac_sha3_256_length.
  repeat split; try assumption.
  intros Heq. rewrite Heq, hmac_sha3_256_length in Hlen.
  assert (Hct : length ctext = length toencrypt) by apply XORKeyStream_length.
  pose proof (json_Marshal_nonempty (encoded.mk (Scalar_Encode pu)
    (Element_Encode (ScalarBaseMult pu))
    (Element_Encode (pendingRegistration.Ps sinfo)))) as Hne.
  fold toencrypt in Hne. destruct toencrypt; [congruence | simpl in Hct; lia].
Qed.

(** C4. OPRF determinism: [Client.NewSession] stores the blinding scalar
    [r] and sends [alpha = r * H'(H(pw))]; when [r] is not zero, for every
    OPRF key [ks], [oprfB] on [beta = ks * alpha], the stored [r] and
    [H(pw)] returns what [oprfA] returns on [H(pw)] and [ks], and that is
    32 bytes long. *)
Theorem oprf_determinism (pw : string) (rnd_xu rnd_r : bytes) (ks : Scalar)
    (c : Client.t) :
  randomScalar rnd_r <> Scalar_Zero ->
  let x := sha3_Sum512 (bytes_of_string pw) in
  exists c' usr,
    Client_NewSession pw rnd_xu rnd_r c = (c', Ok usr) /\
    Client.r c' = Some (randomScalar rnd_r) /\
    UsrSession.Alpha usr
      = ScalarMult (randomScalar rnd_r) (Element_FromUniformBytes x) /\
    oprfB (ScalarMult ks (UsrSession.Alpha usr)) (Client.r c') x
      = Ok (oprfA x ks) /\
    length (oprfA x ks) = 32%nat.
Proof.
  intros Hr x. do 2 eexists. split; [reflexivity |]. cbn.
  split; [reflexivity | split; [reflexivity | split]].
  - now apply oprfB_oprfA.
  - unfold oprfA. now rewrite argon2_IDKey_length.
Qed.

(** C5. Triple-DH: for all scalars, [keServer] on the server's scalars and
    the client's public keys and [keUser] on the client's scalars and the
    server's public keys return the same key: SHA3-256 of the 32-byte
    encodings of the three Diffie-Hellman products, in the order
    (pu, xs), (xu, ps), (xu, xs). *)
Theorem triple_dh_views_agree (ps xs pu xu : Scalar) :
  let dh a b := Element_Encode (ScalarBaseMult (Scalar_Multiply a b)) in
  let K := sha3_Sum256 (dh pu xs ++ dh xu ps ++ dh xu xs) in
  keServer (Some ps) xs (ScalarBaseMult pu) (ScalarBaseMult xu) = Ok K /\
  keUser pu (Some xu) (ScalarBaseMult ps) (ScalarBaseMult xs) = Ok K /\
  length (dh pu xs) = 32%nat /\ length (dh xu ps) = 32%nat /\
  length (dh xu xs) = 32%nat.
Proof.
  intros dh K. subst dh K. cbn beta.
  rewrite keServer_keUser. unfold keUser; cbn.
  rewrite !ScalarMult_ScalarBaseMult, <- app_assoc.
  repeat split; auto using Element_Encode_length.
Qed.

(** C6, amended. After one begin and one successful finalize for [sid], a
    second finalize of the same message returns the error "no pending
    registration" and changes nothing, because the first finalize deleted
    the pending entry; the error "user already registered" is what a
    finalize returns after a new begin for the registered [sid], and that
    finalize deletes the new pending entry and keeps the password file. *)
Theorem second_finalize_has_no_pending (s0 : Server.t) (sid : string)
    (rnd_ks rnd_ps : bytes) (reg : Registration.t) :
  Registration.ID reg = sid ->
  Server.passwordFiles s0 !! sid = None ->
  exists s1 pr s2,
    Server_NewRegistration sid rnd_ks rnd_ps s0 = (s1, Ok pr) /\
    Server_Register reg s1 = (s2, Ok tt) /\
    Server_Register reg s2
      = (s2, Err (errorString "no pending registration")) /\
    forall rnd_ks' rnd_ps', exists s3 pr' s4,
      Server_NewRegistration sid rnd_ks' rnd_ps' s2 = (s3, Ok pr') /\
      Server_Register reg s3
        = (s4, Err (errorString "user already registered")) /\
      Server.pendingRegistrations s4 !! sid = None /\
      Server.passwordFiles s4 = Server.passwordFiles s2.
Proof.
  intros <- Hfresh.
  do 3 eexists. split; [reflexivity |].
  split.
  { eapply Server_Register_Ok; [apply lookup_insert_eq | exact Hfresh]. }
  split.
  { apply Server_Register_no_pending. apply lookup_delete_eq. }
  intros rnd_ks' rnd_ps'. do 3 eexists. split; [reflexivity |].
  split.
  { eapply Server_Register_duplicate; apply lookup_insert_eq. }
  split; [apply lookup_delete_eq | reflexivity].
Qed.

(** C7, amended. When the client holds a blinding scalar, the failed
    checks of [Client.SessionKey] do not end in one and the same error: a
    tag other than the expected one returns "invalid hmac tag on server-sent
    c"; an envelope with the expected tag whose plaintext the decoder
    rejects returns the error of the decoder (of encoding/json or of
    ristretto255), and one on which the decoder panics makes [SessionKey]
    panic, with no error returned; a confirmation other than the client's
    [fk1] returns "server authentication failed". *)
Theorem SessionKey_error_tells_cause (c : Client.t) (session : SvrSession.t)
    (password : string) (rw : bytes) :
  oprfB (SvrSession.Beta session) (Client.r c)
    (sha3_Sum512 (bytes_of_string password)) = Ok rw ->
  let authKey := (deriveHKDFKeys rw).1 in
  let cipherKey := (deriveHKDFKeys rw).2 in
  let envelope := SvrSession.c session in
  let expected :=
    authCiphertext.Ciphertext envelope ++ hmac_sha3_256 authKey [] in
  let caData :=
    XORKeyStream (cipher_NewCTR (mkBlock cipherKey) (make aes_BlockSize))
      (authCiphertext.Ciphertext envelope) in
  (authCiphertext.Tag envelope <> expected ->
     Client_SessionKey session password c
     = (c, Err (errorString "invalid hmac tag on server-sent c"))) /\
  (authCiphertext.Tag envelope = expected ->
     forall e, ciphertextData_UnmarshalJSON caData = Err e ->
     Client_SessionKey session password c = (c, Err e) /\
     (e = json_UnmarshalError \/ e = errInvalidElementEncoding \/
      e = errInvalidScalarEncoding)) /\
  (authCiphertext.Tag envelope = expected ->
     forall ca K, ciphertextData_UnmarshalJSON caData = Ok ca ->
     keUser (ciphertextData.pu ca) (Client.xu c) (ciphertextData.Ps ca)
       (SvrSession.Xs session) = Ok K ->
     SvrSession.fk1 session <> blake2b_256 K [x01] ->
     Client_SessionKey session password c
     = (c, Err (errorString "server authentication failed"))) /\
  (authCiphertext.Tag envelope = expected ->
     ciphertextData_UnmarshalJSON caData = Panic ->
     Client_SessionKey session password c = (c, Panic)).
Proof.
  intros Hrw authKey cipherKey envelope expected caData.
  subst expected caData authKey cipherKey envelope.
  destruct (deriveHKDFKeys_length rw) as [_ Hck].
  destruct (deriveHKDFKeys rw) as [hmacKey cipherKey] eqn:Hkeys.
  cbn in Hck |- *.
  split; [| split; [| split]]; intros Htag.
  - enter_SessionKey Hrw Hkeys Hck.
    rewrite ConstantTimeCompare_ne by (intros Heq; apply Htag; now symmetry).
    reflexivity.
  - intros e He. enter_SessionKey Hrw Hkeys Hck.
    rewrite ConstantTimeCompare_eq by now symmetry. cbn.
    unfold mbind, mlift. rewrite He. split; [reflexivity |].
    eapply UnmarshalJSON_errors; eassumption.
  - intros ca K Hca HK Hfk1. enter_SessionKey Hrw Hkeys Hck.
    rewrite ConstantTimeCompare_eq by now symmetry. cbn.
    unfold mbind, mlift. rewrite Hca, HK.
    rewrite !prf_Ok by (eapply keUser_length; eassumption).
    rewrite ConstantTimeCompare_ne by (intros Heq; apply Hfk1; now symmetry).
    reflexivity.
  - intros Hca. enter_SessionKey Hrw Hkeys Hck.
    rewrite ConstantTimeCompare_eq by now symmetry. cbn.
    unfold mbind, mlift. now rewrite Hca.
Qed.

(** C8, amended. [Client.SessionKey] does not touch the client: whatever
    it returns (keys, an error or a panic), the client is the one it was
    called on, so the blinding scalar [r] and the scalar [xu] that
    [NewSession] stored are still there. *)
Theorem SessionKey_keeps_client_state (session : SvrSession.t)
    (password : string) (c : Client.t) :
  (Client_SessionKey session password c).1 = c.
Proof.
  unfold Client_SessionKey, mbind, mget, mlift, mthrow, mreturn.
  repeat match goal with
  | |- context [match ?x with _ => _ end] => destruct x
  | |- context [if ?b then _ else _] => destruct b
  end; reflexivity.
Qed.

(** C9. [Server.NewRegistration] never fails: for every server and every
    [sid] it returns [(ks, Ps)] with a nil error; the pending registration
    of [sid] is the fresh [(ks, Ps, ps)] with [Ps = ps * B], whatever it
    was before; the other pending registrations and the password files
    are unchanged. *)
Theorem NewRegistration_never_fails (s : Server.t) (sid : string)
    (rnd_ks rnd_ps : bytes) :
  let ks := randomScalar rnd_ks in
  let ps := randomScalar rnd_ps in
  let Ps := ScalarBaseMult ps in
  exists s',
    Server_NewRegistration sid rnd_ks rnd_ps s
      = (s', Ok (pendingRegistration.mk ks Ps None)) /\
    Server.pendingRegistrations s'
      = <[sid := pendingRegistration.mk ks Ps (Some ps)]>
          (Server.pendingRegistrations s) /\
    Server.pendingRegistrations s' !! sid
      = Some (pendingRegistration.mk ks Ps (Some ps)) /\
    (forall sid', sid' <> sid ->
       Server.pendingRegistrations s' !! sid'
       = Server.pendingRegistrations s !! sid') /\
    Server.passwordFiles s' = Server.passwordFiles s.
Proof.
  intros ks ps Ps. eexists. split; [reflexivity |]. cbn.
  split; [reflexivity | split; [| split; [| reflexivity]]].
  - apply lookup_insert_eq.
  - intros sid' Hne. now apply lookup_insert_ne.
Qed.

(** C10. A client that [NewClient] made and that did not call
    [NewSession] holds nil for [r] and [xu], and [SessionKey] on it
    panics, for every message and password: it neither returns keys nor
    an error. *)
Theorem SessionKey_needs_NewSession (id : string) (session : SvrSession.t)
    (password : string) :
  Client.r (NewClient id) = None /\ Client.xu (NewClient id) = None /\
  Client_SessionKey session password (NewClient id) = (NewClient id, Panic).
Proof.
  split; [reflexivity | split; [reflexivity |]].
  now apply Client_SessionKey_nil_r.
Qed.

End Claims.

(** ** The claims on the run of the scenario *)

Section OnTheScenario.
Local Existing Instances Toy.group Toy.primitives.
Import Scenario.

Lemma honest_run_agrees_witness :
  Server.passwordFiles NewServer !! sid = None /\
  randomScalar rnd_r <> Scalar_Zero /\
  exists s1 pr c1 reg s2 c2 usr s3 svr SK c3 fk2,
    Server_NewRegistration sid rnd_ks rnd_ps NewServer = (s1, Ok pr) /\
    Client_NewRegistration pr sid password rnd_pu (NewClient sid)
      = (c1, Ok reg) /\
    Server_Register reg s1 = (s2, Ok tt) /\
    Client_NewSession password rnd_xu rnd_r c1 = (c2, Ok usr) /\
    Server_NewSession usr rnd_xs s2 = (s3, Ok (svr, SK)) /\
    Client_SessionKey svr password c2 = (c3, Ok (SK, fk2)) /\
    length SK = 32%nat.
Proof.
  assert (Hfresh : Server.passwordFiles NewServer !! sid = None)
    by reflexivity.
  assert (Hr : randomScalar rnd_r <> Scalar_Zero) by (cbv; discriminate).
  split; [exact Hfresh | split; [exact Hr |]].
  exact (honest_run_agrees NewServer sid password
           rnd_ks rnd_ps rnd_pu rnd_xu rnd_r rnd_xs Hfresh Hr).
Defined.

Lemma oprf_determinism_witness :
  randomScalar rnd_r <> Scalar_Zero /\
  exists c' usr,
    Client_NewSession password rnd_xu rnd_r (NewClient sid) = (c', Ok usr) /\
    Client.r c' = Some (randomScalar rnd_r) /\
    UsrSession.Alpha usr
      = ScalarMult (randomScalar rnd_r)
          (Element_FromUniformBytes (sha3_Sum512 (bytes_of_string password))) /\
    oprfB (ScalarMult (randomScalar rnd_ks) (UsrSession.Alpha usr))
      (Client.r c') (sha3_Sum512 (bytes_of_string password))
      = Ok (oprfA (sha3_Sum512 (bytes_of_string password))
              (randomScalar rnd_ks)) /\
    length (oprfA (sha3_Sum512 (bytes_of_string password))
              (randomScalar rnd_ks)) = 32%nat.
Proof.
  assert (Hr : randomScalar rnd_r <> Scalar_Zero) by (cbv; discriminate).
  split; [exact Hr |].
  exact (oprf_determinism password rnd_xu rnd_r (randomScalar rnd_ks)
           (NewClient sid) Hr).
Defined.

(** Scenario 3 of the specification: the second finalize does not return
    the error of a duplicate registration. *)
Lemma finalized_twice_counterexample :
  (finalized_twice (NewWorld sid)).2
    = Err (errorString "no pending registration") /\
  (finalized_twice (NewWorld sid)).2
    <> Err (errorString "user already registered").
Proof.
  assert (Hrun : (finalized_twice (NewWorld sid)).2
                 = Err (errorString "no pending registration"))
    by (vm_compute; reflexivity).
  split; [exact Hrun |]. rewrite Hrun. discriminate.
Qed.

Lemma second_finalize_has_no_pending_witness :
  let reg := Registration.mk sid (authCiphertext.mk [] [])
               (ScalarBaseMult (randomScalar rnd_pu)) in
  Registration.ID reg = sid /\
  Server.passwordFiles NewServer !! sid = None /\
  exists s2,
    Server_Register reg s2 = (s2, Err (errorString "no pending registration")).
Proof.
  intros reg.
  assert (Hid : Registration.ID reg = sid) by reflexivity.
  assert (Hfresh : Server.passwordFiles NewServer !! sid = None)
    by reflexivity.
  split; [exact Hid | split; [exact Hfresh |]].
  destruct (second_finalize_has_no_pending NewServer sid rnd_ks rnd_ps reg
              Hid Hfresh) as (s1 & pr & s2 & _ & _ & Hsecond & _).
  exists s2. exact Hsecond.
Defined.

(** Three failures of [Client.SessionKey], three errors. *)
Lemma SessionKey_errors_counterexample :
  (logged_in cut_tag (NewWorld sid)).2
    = Err (errorString "invalid hmac tag on server-sent c") /\
  (logged_in swap_envelope (NewWorld sid)).2 = Err json_UnmarshalError /\
  (logged_in cut_fk1 (NewWorld sid)).2
    = Err (errorString "server authentication failed") /\
  errorString "invalid hmac tag on server-sent c" <> json_UnmarshalError /\
  json_UnmarshalError <> errorString "server authentication failed" /\
  errorString "invalid hmac tag on server-sent c"
    <> errorString "server authentication failed".
Proof.
  split; [vm_compute; reflexivity |].
  split; [vm_compute; reflexivity |].
  split; [vm_compute; reflexivity |].
  repeat split; discriminate.
Qed.

Lemma SessionKey_error_tells_cause_witness :
  exists rw,
    oprfB (SvrSession.Beta message) (Client.r client)
      (sha3_Sum512 (bytes_of_string password)) = Ok rw /\
    Client_SessionKey message password client
      = (client, Err (errorString "invalid hmac tag on server-sent c")).
Proof.
  eexists. split; [reflexivity |].
  apply (proj1 (SessionKey_error_tells_cause client message password _ eq_refl)).
  intros Htag. vm_compute in Htag. discriminate Htag.
Defined.

(** After a login that succeeds and after one that fails, the client still
    holds the blinding scalar that [NewSession] drew, and it is not zero. *)
Lemma SessionKey_keeps_r_counterexample :
  (exists keys, (logged_in untouched (NewWorld sid)).2 = Ok keys) /\
  Client.r (logged_in untouched (NewWorld sid)).1.2
    = Some (randomScalar rnd_r) /\
  (exists e, (logged_in cut_tag (NewWorld sid)).2 = Err e) /\
  Client.r (logged_in cut_tag (NewWorld sid)).1.2
    = Some (randomScalar rnd_r) /\
  randomScalar rnd_r <> Scalar_Zero.
Proof.
  split; [eexists; vm_compute; reflexivity |].
  split; [vm_compute; reflexivity |].
  split; [eexists; vm_compute; reflexivity |].
  split; [vm_compute; reflexivity |].
  cbv; discriminate.
Qed.

End OnTheScenario.

(** ** Further properties of the code *)

Section MoreOfTheServer.
Context `{G : Ristretto255} `{P : Primitives}.

Lemma Server_Register_cases (reg : Registration.t) (s : Server.t) :
  let id := Registration.ID reg in
  (Server.pendingRegistrations s !! id = None /\
   Server_Register reg s = (s, Err (errorString "no pending registration"))) \/
  (exists pr pf,
     Server.pendingRegistrations s !! id = Some pr /\
     Server.passwordFiles s !! id = Some pf /\
     Server_Register reg s =
       (Server.mk (Server.passwordFiles s)
          (delete id (Server.pendingRegistrations s)),
        Err (errorString "user already registered"))) \/
  (exists pr,
     Server.pendingRegistrations s !! id = Some pr /\
     Server.passwordFiles s !! id = None /\
     Server_Register reg s =
       (Server.mk
          (<[id := pwdFile.mk (pendingRegistration.ks pr)
                     (pendingRegistration.ps pr) (pendingRegistration.Ps pr)
                     (Registration.Pu reg) (Registration.aci reg)]>
             (Server.passwordFiles s))
          (delete id (Server.pendingRegistrations s)),
        Ok tt)).
Proof.
  intros id. subst id.
  destruct (Server.pendingRegistrations s !! Registration.ID reg) as [pr|] eqn:Hpr.
  - destruct (Server.passwordFiles s !! Registration.ID reg) as [pf|] eqn:Hpf.
    + right; left. exists pr, pf. repeat split.
      eapply Server_Register_duplicate; eassumption.
    + right; right. exists pr. repeat split.
      now apply Server_Register_Ok.
  - left. split; [reflexivity |]. now apply Server_Register_no_pending.
Qed.

(** X1. [Server.Register] returns without an error exactly when there is a
    pending registration for the message's ID and no password file for it. *)
Theorem Register_succeeds_iff (reg : Registration.t) (s : Server.t) :
  (Server_Register reg s).2 = Ok tt <->
  is_Some (Server.pendingRegistrations s !! Registration.ID reg) /\
  Server.passwordFiles s !! Registration.ID reg = None.
Proof.
  destruct (Server_Register_cases reg s)
    as [[Hpr ->] | [(pr & pf & Hpr & Hpf & ->) | (pr & Hpr & Hpf & ->)]];
    cbn; rewrite Hpr.
  - split; [discriminate |]. intros [[? [=]] _].
  - rewrite Hpf. split; [discriminate |]. intros [_ [=]].
  - rewrite Hpf. split; [eauto | reflexivity].
Qed.

(** X2. [Server.Register] never overwrites and never deletes a password
    file: a file that is stored before the call is stored, unchanged, after
    it, whatever the message and whatever the outcome. *)
Theorem Register_keeps_password_files (reg : Registration.t) (s : Server.t)
    (id : string) (pf : pwdFile.t) :
  Server.passwordFiles s !! id = Some pf ->
  Server.passwordFiles (Server_Register reg s).1 !! id = Some pf.
Proof.
  intros Hid.
  destruct (Server_Register_cases reg s)
    as [[Hpr ->] | [(pr & pf' & Hpr & Hpf & ->) | (pr & Hpr & Hpf & ->)]];
    cbn; try assumption.
  rewrite lookup_insert_ne; [assumption |].
  intros <-. rewrite Hid in Hpf. discriminate.
Qed.

(** X3. After [Server.Register], whatever it returned, there is no pending
    registration for the message's ID, and the records of every other ID,
    pending or registered, are what they were. *)
Theorem Register_consumes_pending (reg : Registration.t) (s : Server.t) :
  let s' := (Server_Register reg s).1 in
  Server.pendingRegistrations s' !! Registration.ID reg = None /\
  forall id, id <> Registration.ID reg ->
    Server.pendingRegistrations s' !! id = Server.pendingRegistrations s !! id /\
    Server.passwordFiles s' !! id = Server.passwordFiles s !! id.
Proof.
  destruct (Server_Register_cases reg s)
    as [[Hpr ->] | [(pr & pf' & Hpr & Hpf & ->) | (pr & Hpr & Hpf & ->)]];
    cbn.
  - split; [assumption | auto].
  - split; [apply lookup_delete_eq |]. intros id Hne.
    split; [now apply lookup_delete_ne | reflexivity].
  - split; [apply lookup_delete_eq |]. intros id Hne.
    split; [now apply lookup_delete_ne | now apply lookup_insert_ne].
Qed.

Lemma Server_NewSession_cases (session : UsrSession.t) (rnd_xs : bytes)
    (s : Server.t) :
  (Server.passwordFiles s !! UsrSession.Sid session = None /\
   Server_NewSession session rnd_xs s = (s, Err (errorString "no such sid"))) \/
  (exists pf, Server.passwordFiles s !! UsrSession.Sid session = Some pf /\
     pwdFile.ps pf = None /\ Server_NewSession session rnd_xs s = (s, Panic)) \/
  (exists pf ps svr SK,
     Server.passwordFiles s !! UsrSession.Sid session = Some pf /\
     pwdFile.ps pf = Some ps /\
     Server_NewSession session rnd_xs s = (s, Ok (svr, SK))).
Proof.
  destruct (Server.passwordFiles s !! UsrSession.Sid session) as [pf|] eqn:Hpf.
  - destruct (pwdFile.ps pf) as [ps|] eqn:Hps.
    + right; right.
      destruct (Server_NewSession_Ok session rnd_xs s pf ps Hpf Hps)
        as (K & _ & Hrun).
      do 4 eexists. repeat split; eassumption.
    + right; left. exists pf. split; [reflexivity | split; [assumption |]].
      unfold Server_NewSession, mbind, mget; simpl. rewrite Hpf.
      unfold keServer, mlift; simpl. rewrite Hps. reflexivity.
  - left. split; [reflexivity |].
    unfold Server_NewSession, mbind, mget; simpl. now rewrite Hpf.
Qed.

(** X4. [Server.NewSession] never changes the server; it returns the error
    "no such sid" exactly when there is no password file for the session's
    sid, and it returns no other error. *)
Theorem NewSession_unknown_sid (session : UsrSession.t) (rnd_xs : bytes)
    (s : Server.t) :
  (Server_NewSession session rnd_xs s).1 = s /\
  ((Server_NewSession session rnd_xs s).2 = Err (errorString "no such sid") <->
   Server.passwordFiles s !! UsrSession.Sid session = None) /\
  (forall e, (Server_NewSession session rnd_xs s).2 = Err e ->
     e = errorString "no such sid").
Proof.
  destruct (Server_NewSession_cases session rnd_xs s)
    as [[Hpf ->] | [(pf & Hpf & Hps & ->) | (pf & ps & svr & SK & Hpf & Hps & ->)]];
    cbn; rewrite Hpf; (split; [reflexivity | split; [split |]]);
    try discriminate; try reflexivity.
  now intros e [= <-].
Qed.

(** X5. Every record of a server holds a key pair (the private scalar is
    there, the public element is its multiple of the base point): this
    holds of [NewServer], and each of the three methods of the server
    keeps it, whatever the method returns. *)
Theorem Server_wf_invariant :
  Server_wf NewServer /\
  (forall s sid rnd_ks rnd_ps, Server_wf s ->
     Server_wf (Server_NewRegistration sid rnd_ks rnd_ps s).1) /\
  (forall s reg, Server_wf s -> Server_wf (Server_Register reg s).1) /\
  (forall s session rnd_xs, Server_wf s ->
     Server_wf (Server_NewSession session rnd_xs s).1).
Proof.
  split; [| split; [| split]].
  - split; intros id x Hx; cbn in Hx; rewrite lookup_empty in Hx; discriminate.
  - intros s sid rnd_ks rnd_ps [Hpf Hpr]. split; cbn; [exact Hpf |].
    intros id pr. destruct (decide (sid = id)) as [<- | Hne].
    + rewrite lookup_insert_eq. intros [= <-]. cbn. eexists. split; reflexivity.
    + rewrite lookup_insert_ne by assumption. apply Hpr.
  - intros s reg [Hpf Hpr].
    destruct (Server_Register_cases reg s)
      as [[Hp ->] | [(pr & pf' & Hp & Hf & ->) | (pr & Hp & Hf & ->)]]; cbn.
    + now split.
    + split; cbn; [exact Hpf |]. intros id pr'.
      rewrite lookup_delete_Some. intros [_ Hid]. eapply Hpr; eassumption.
    + split; cbn.
      * intros id pf. destruct (decide (Registration.ID reg = id)) as [<- | Hne].
        -- rewrite lookup_insert_eq. intros [= <-]. cbn. eapply Hpr; eassumption.
        -- rewrite lookup_insert_ne by assumption. apply Hpf.
      * intros id pr'. rewrite lookup_delete_Some. intros [_ Hid].
        eapply Hpr; eassumption.
  - intros s session rnd_xs Hwf.
    destruct (Server_NewSession_cases session rnd_xs s)
      as [[Hf ->] | [(pf & Hf & Hps & ->) | (pf & ps & svr & SK & Hf & Hps & ->)]];
      cbn; assumption.
Qed.
End MoreOfTheServer.

Section MoreOfTheClient.
Context `{G : Ristretto255} `{P : Primitives}.

(** [Client.SessionKey] as one expression, when the blinding scalar is
    there: the keys are 32 bytes long, so neither [aes.NewCipher] nor [prf]
    can fail. *)
Lemma Client_SessionKey_unfold (c : Client.t) (session : SvrSession.t)
    (password : string) (rw hmacKey cipherKey : bytes) :
  oprfB (SvrSession.Beta session) (Client.r c)
    (sha3_Sum512 (bytes_of_string password)) = Ok rw ->
  deriveHKDFKeys rw = (hmacKey, cipherKey) ->
  let envelope := SvrSession.c session in
  Client_SessionKey session password c =
    (c,
     if negb (ConstantTimeCompare
                (authCiphertext.Ciphertext envelope ++ hmac_sha3_256 hmacKey [])
                (authCiphertext.Tag envelope) =? 1)
     then Err (errorString "invalid hmac tag on server-sent c")
     else
       let? ca := ciphertextData_UnmarshalJSON
         (XORKeyStream (cipher_NewCTR (mkBlock cipherKey) (make aes_BlockSize))
            (authCiphertext.Ciphertext envelope)) in
       let? K := keUser (ciphertextData.pu ca) (Client.xu c)
                   (ciphertextData.Ps ca) (SvrSession.Xs session) in
       if negb (ConstantTimeCompare (blake2b_256 K [x01])
                  (SvrSession.fk1 session) =? 1)
       then Err (errorString "server authentication failed")
       else Ok (blake2b_256 K [x00], blake2b_256 K [x02])).
Proof.
  intros Hrw Hkeys envelope. subst envelope.
  pose proof (deriveHKDFKeys_length rw) as [_ Hck].
  rewrite Hkeys in Hck; cbn in Hck.
  enter_SessionKey Hrw Hkeys Hck.
  destruct (negb _); [reflexivity |].
  unfold mbind, mlift.
  destruct (ciphertextData_UnmarshalJSON _) as [ca | e |]; cbn; try reflexivity.
  destruct (keUser _ _ _ _) as [K | e |] eqn:HK; cbn; try reflexivity.
  rewrite !prf_Ok by (eapply keUser_length; eassumption).
  destruct (negb _); reflexivity.
Qed.

(** X9. The errors of [Client.SessionKey] are five: the two messages of its
    own, and the three of the envelope's decoder. In particular it never
    returns the key size error of [aes.NewCipher]. *)
Theorem SessionKey_error_values (session : SvrSession.t) (password : string)
    (c : Client.t) (e : error) :
  (Client_SessionKey session password c).2 = Err e ->
  e = errorString "invalid hmac tag on server-sent c" \/
  e = json_UnmarshalError \/ e = errInvalidElementEncoding \/
  e = errInvalidScalarEncoding \/
  e = errorString "server authentication failed".
Proof.
  destruct (Client.r c) as [r|] eqn:Hr.
  2:{ rewrite Client_SessionKey_nil_r by assumption. discriminate. }
  destruct (deriveHKDFKeys (argon2_IDKey (sha3_Sum512
    (sha3_Sum512 (bytes_of_string password) ++
     Element_Encode (ScalarMult (Scalar_Invert r) (SvrSession.Beta session))))
    [] argonTime argonMemory 4 32)) as [hmacKey cipherKey] eqn:Hkeys.
  rewrite (Client_SessionKey_unfold c session password _ hmacKey cipherKey)
    by (rewrite ?Hr; first [reflexivity | eassumption]).
  cbn. destruct (negb _); [intros [= <-]; auto |].
  destruct (ciphertextData_UnmarshalJSON _) as [ca | e' |] eqn:Hca; cbn;
    try discriminate.
  2:{ intros [= <-]. apply UnmarshalJSON_errors in Hca. tauto. }
  destruct (keUser _ _ _ _) as [K | e' |] eqn:HK; cbn; try discriminate.
  - destruct (negb _); [intros [= <-]; auto 10 | discriminate].
  - unfold keUser in HK. destruct (Client.xu c); discriminate.
Qed.

(** Two plaintexts on which [UnmarshalJSON] panics: the JSON literal null,
    which leaves the pointer to the decoded struct nil, and an object whose
    "Pu" decodes and whose "pu" is not 32 bytes long. *)
Lemma UnmarshalJSON_panics (data : bytes) :
  json_Unmarshal data = Some None \/
  (exists e Pu, json_Unmarshal data = Some (Some e) /\
     Element_Decode (encoded.Pu e) = Some Pu /\
     length (encoded.Puscalar e) <> 32%nat) ->
  ciphertextData_UnmarshalJSON data = Panic.
Proof.
  unfold ciphertextData_UnmarshalJSON.
  intros [-> | (e & Pu & -> & HPu & Hlen)]; cbn; [reflexivity |].
  rewrite HPu; cbn. unfold Scalar_Decode_into.
  destruct (Nat.eqb_spec (length (encoded.Puscalar e)) 32); [contradiction |].
  reflexivity.
Qed.

(** X10. When [Client.SessionKey] returns keys, the three checks passed:
    the tag is the ciphertext followed by the HMAC of the empty message
    under the derived key, the decrypted envelope parsed, and the server's
    confirmation is the client's own [prf(K, 1)]; the keys returned are
    [prf(K, 0)] and [prf(K, 2)] for the same [K]. *)
Theorem SessionKey_accepts_only_confirmed (session : SvrSession.t)
    (password : string) (c : Client.t) (SK fk2 : bytes) :
  (Client_SessionKey session password c).2 = Ok (SK, fk2) ->
  exists rw ca K,
    oprfB (SvrSession.Beta session) (Client.r c)
      (sha3_Sum512 (bytes_of_string password)) = Ok rw /\
    authCiphertext.Tag (SvrSession.c session)
      = authCiphertext.Ciphertext (SvrSession.c session)
        ++ hmac_sha3_256 (deriveHKDFKeys rw).1 [] /\
    ciphertextData_UnmarshalJSON
      (XORKeyStream
         (cipher_NewCTR (mkBlock (deriveHKDFKeys rw).2) (make aes_BlockSize))
         (authCiphertext.Ciphertext (SvrSession.c session))) = Ok ca /\
    keUser (ciphertextData.pu ca) (Client.xu c) (ciphertextData.Ps ca)
      (SvrSession.Xs session) = Ok K /\
    SvrSession.fk1 session = blake2b_256 K [x01] /\
    SK = blake2b_256 K [x00] /\ fk2 = blake2b_256 K [x02].
Proof.
  destruct (oprfB (SvrSession.Beta session) (Client.r c)
              (sha3_Sum512 (bytes_of_string password))) as [rw | e |] eqn:Hrw.
  2,3: unfold Client_SessionKey, mbind, mget, mlift; rewrite Hrw; discriminate.
  destruct (deriveHKDFKeys rw) as [hmacKey cipherKey] eqn:Hkeys.
  rewrite (Client_SessionKey_unfold c session password rw hmacKey cipherKey)
    by assumption.
  cbn.
  destruct (decide (authCiphertext.Ciphertext (SvrSession.c session)
                      ++ hmac_sha3_256 hmacKey []
                    = authCiphertext.Tag (SvrSession.c session))) as [Htag | Htag].
  2:{ rewrite ConstantTimeCompare_ne by assumption. discriminate. }
  rewrite ConstantTimeCompare_eq by assumption. cbn.
  destruct (ciphertextData_UnmarshalJSON _) as [ca | e |] eqn:Hca; cbn;
    try discriminate.
  destruct (keUser _ _ _ _) as [K | e |] eqn:HK; cbn; try discriminate.
  destruct (decide (blake2b_256 K [x01] = SvrSession.fk1 session)) as [Hfk | Hfk].
  2:{ rewrite ConstantTimeCompare_ne by assumption. discriminate. }
  rewrite ConstantTimeCompare_eq by assumption. cbn.
  intros [= <- <-]. exists rw, ca, K. rewrite Hkeys. cbn.
  repeat split; auto.
Qed.

(** X11. The tag check of [Client.SessionKey] does not cover the
    ciphertext: from one envelope that passes it, any ciphertext [ct]
    passes it too with the tag [ct] followed by the last 32 bytes of the
    old tag. *)
Theorem SessionKey_tag_ignores_ciphertext (c : Client.t)
    (session : SvrSession.t) (password : string) (rw ct : bytes) :
  oprfB (SvrSession.Beta session) (Client.r c)
    (sha3_Sum512 (bytes_of_string password)) = Ok rw ->
  authCiphertext.Tag (SvrSession.c session)
    = authCiphertext.Ciphertext (SvrSession.c session)
      ++ hmac_sha3_256 (deriveHKDFKeys rw).1 [] ->
  let suffix := drop (length (authCiphertext.Ciphertext (SvrSession.c session)))
                  (authCiphertext.Tag (SvrSession.c session)) in
  let forged := SvrSession.mk (SvrSession.Beta session) (SvrSession.Xs session)
                  (SvrSession.fk1 session) (authCiphertext.mk (ct ++ suffix) ct) in
  (Client_SessionKey forged password c).2
    <> Err (errorString "invalid hmac tag on server-sent c").
Proof.
  intros Hrw Htag suffix forged.
  assert (Hsuffix : suffix = hmac_sha3_256 (deriveHKDFKeys rw).1 []).
  { subst suffix. rewrite Htag. now rewrite drop_app_length. }
  destruct (deriveHKDFKeys rw) as [hmacKey cipherKey] eqn:Hkeys.
  cbn in Hsuffix.
  rewrite (Client_SessionKey_unfold c forged password rw hmacKey cipherKey)
    by assumption.
  subst forged. cbn. rewrite Hsuffix, ConstantTimeCompare_refl. cbn.
  destruct (ciphertextData_UnmarshalJSON _) as [ca | e |] eqn:Hca; cbn;
    try discriminate.
  - destruct (keUser _ _ _ _) as [K | e |] eqn:HK; cbn; try discriminate.
    + destruct (negb _); discriminate.
    + unfold keUser in HK. destruct (Client.xu c); discriminate.
  - apply UnmarshalJSON_errors in Hca.
    intros [= ->]. destruct Hca as [? | [? | ?]]; discriminate.
Qed.

(** X12. [Client.SessionKey] panics, and returns no error, when the tag
    check passes and the decrypted envelope is the JSON literal null (the
    pointer that [UnmarshalJSON] fills is then nil), or is an object whose
    "Pu" decodes and whose "pu" is not 32 bytes long ([Scalar.Decode]
    panics on it). *)
Theorem SessionKey_panics_on_envelope (c : Client.t) (session : SvrSession.t)
    (password : string) (rw : bytes) :
  oprfB (SvrSession.Beta session) (Client.r c)
    (sha3_Sum512 (bytes_of_string password)) = Ok rw ->
  authCiphertext.Tag (SvrSession.c session)
    = authCiphertext.Ciphertext (SvrSession.c session)
      ++ hmac_sha3_256 (deriveHKDFKeys rw).1 [] ->
  let caData :=
    XORKeyStream
      (cipher_NewCTR (mkBlock (deriveHKDFKeys rw).2) (make aes_BlockSize))
      (authCiphertext.Ciphertext (SvrSession.c session)) in
  json_Unmarshal caData = Some None \/
  (exists e Pu, json_Unmarshal caData = Some (Some e) /\
     Element_Decode (encoded.Pu e) = Some Pu /\
     length (encoded.Puscalar e) <> 32%nat) ->
  Client_SessionKey session password c = (c, Panic).
Proof.
  intros Hrw Htag caData Hdata. subst caData.
  apply UnmarshalJSON_panics in Hdata.
  destruct (deriveHKDFKeys rw) as [hmacKey cipherKey] eqn:Hkeys.
  rewrite (Client_SessionKey_unfold c session password rw hmacKey cipherKey)
    by assumption.
  cbn in Htag, Hdata |- *.
  rewrite ConstantTimeCompare_eq by now symmetry. cbn.
  now rewrite Hdata.
Qed.

(** X8. Envelope round trip: the ciphertext that [Client.NewRegistration]
    returns decrypts, under the cipher key of the same password and OPRF
    key, and parses to the client's key pair [(pu, pu * B)] and the
    server's [Ps]; the message carries the username and the same public
    key. *)
Theorem registration_envelope_opens (sinfo : pendingRegistration.t)
    (username password : string) (rnd_pu : bytes) (c : Client.t) :
  let pu := randomScalar rnd_pu in
  let rw := oprfA (sha3_Sum512 (bytes_of_string password))
              (pendingRegistration.ks sinfo) in
  exists reg,
    Client_NewRegistration sinfo username password rnd_pu c = (c, Ok reg) /\
    Registration.ID reg = username /\
    Registration.Pu reg = ScalarBaseMult pu /\
    ciphertextData_UnmarshalJSON
      (XORKeyStream
         (cipher_NewCTR (mkBlock (deriveHKDFKeys rw).2) (make aes_BlockSize))
         (authCiphertext.Ciphertext (Registration.aci reg)))
    = Ok (ciphertextData.mk pu (ScalarBaseMult pu) (pendingRegistration.Ps sinfo)).
Proof.
  intros pu rw. eexists. split; [apply Client_NewRegistration_Ok |].
  cbn. fold pu rw. split; [reflexivity | split; [reflexivity |]].
  rewrite XORKeyStream_cancel.
  now apply UnmarshalJSON_MarshalJSON.
Qed.

(** X13. [TestRegister] passes for every username, password and entropy:
    the three calls return without an error, a password file is stored,
    no pending registration is left, and the client is untouched. *)
Theorem TestRegister_passes (testusername testpassword : string)
    (rnd_ks rnd_ps rnd_pu : bytes) :
  exists w reg,
    register testusername testpassword rnd_ks rnd_ps rnd_pu
      (NewWorld testusername) = (w, Ok reg) /\
    is_Some (Server.passwordFiles w.1 !! testusername) /\
    Server.pendingRegistrations w.1 !! testusername = None /\
    w.2 = NewClient testusername.
Proof.
  set (pr := pendingRegistration.mk (randomScalar rnd_ks)
                (ScalarBaseMult (randomScalar rnd_ps)) None).
  set (s1 := Server.mk (Server.passwordFiles NewServer)
    (<[testusername := pendingRegistration.mk (randomScalar rnd_ks)
                         (ScalarBaseMult (randomScalar rnd_ps))
                         (Some (randomScalar rnd_ps))]>
       (Server.pendingRegistrations NewServer))).
  set (c := NewClient testusername).
  assert (H1 : on_server (Server_NewRegistration testusername rnd_ks rnd_ps)
                 (NewWorld testusername) = ((s1, c), Ok pr)) by reflexivity.
  pose proof (Client_NewRegistration_Ok pr testusername testpassword rnd_pu c)
    as Hreg.
  cbv zeta in Hreg.
  match type of Hreg with _ = (_, Ok ?v) => set (reg := v) in * end.
  assert (H2 : on_client (Client_NewRegistration pr testusername testpassword
                            rnd_pu) (s1, c) = ((s1, c), Ok reg))
    by (unfold on_client; cbn [fst snd]; now rewrite Hreg).
  pose proof (Server_Register_Ok reg s1 _ (lookup_insert_eq _ _ _) (lookup_empty _))
    as Hfin.
  match type of Hfin with _ = (?v, _) => set (s2 := v) in * end.
  assert (H3 : on_server (Server_Register reg) (s1, c) = ((s2, c), Ok tt))
    by (unfold on_server; cbn [fst snd]; now rewrite Hfin).
  exists (s2, c), reg. split.
  - unfold register, mbind. rewrite H1, H2, H3. reflexivity.
  - cbn [fst snd]. split; [| split; [| reflexivity]].
    + subst s2. cbn. rewrite lookup_insert_eq. eauto.
    + subst s2. cbn. apply lookup_delete_eq.
Qed.

(** X7. A second [Server.NewRegistration] for the same sid replaces the
    first: the finalize that follows stores the keys of the second begin. *)
Theorem latest_begin_wins (s : Server.t) (sid : string)
    (rnd_ks1 rnd_ps1 rnd_ks2 rnd_ps2 : bytes) (reg : Registration.t) :
  Registration.ID reg = sid ->
  Server.passwordFiles s !! sid = None ->
  exists s1 pr1 s2 pr2 s3,
    Server_NewRegistration sid rnd_ks1 rnd_ps1 s = (s1, Ok pr1) /\
    Server_NewRegistration sid rnd_ks2 rnd_ps2 s1 = (s2, Ok pr2) /\
    Server_Register reg s2 = (s3, Ok tt) /\
    Server.passwordFiles s3 !! sid
      = Some (pwdFile.mk (randomScalar rnd_ks2) (Some (randomScalar rnd_ps2))
                (ScalarBaseMult (randomScalar rnd_ps2))
                (Registration.Pu reg) (Registration.aci reg)).
Proof.
  intros <- Hfresh. do 5 eexists.
  split; [reflexivity |]. split; [reflexivity |].
  split.
  - eapply Server_Register_Ok; [apply lookup_insert_eq | exact Hfresh].
  - cbn. apply lookup_insert_eq.
Qed.

(** X6. After a successful [Server.Register], [Server.NewSession] for that
    ID answers with the envelope of the registration message as it was
    sent, [Beta = ks * Alpha] for the registered [ks], a fresh [Xs], and the
    session key and confirmation [prf(K, 0)] and [prf(K, 1)] of the key
    exchange, 32 bytes each; the server is not changed by it. *)
Theorem NewSession_after_Register (reg : Registration.t) (s : Server.t)
    (pr : pendingRegistration.t) (ps : Scalar) (session : UsrSession.t)
    (rnd_xs : bytes) :
  Server.pendingRegistrations s !! Registration.ID reg = Some pr ->
  Server.passwordFiles s !! Registration.ID reg = None ->
  pendingRegistration.ps pr = Some ps ->
  UsrSession.Sid session = Registration.ID reg ->
  exists s' svr SK K,
    Server_Register reg s = (s', Ok tt) /\
    Server_NewSession session rnd_xs s' = (s', Ok (svr, SK)) /\
    SvrSession.c svr = Registration.aci reg /\
    SvrSession.Beta svr
      = ScalarMult (pendingRegistration.ks pr) (UsrSession.Alpha session) /\
    SvrSession.Xs svr = ScalarBaseMult (randomScalar rnd_xs) /\
    keServer (Some ps) (randomScalar rnd_xs) (Registration.Pu reg)
      (UsrSession.Xu session) = Ok K /\
    SK = blake2b_256 K [x00] /\ SvrSession.fk1 svr = blake2b_256 K [x01] /\
    length SK = 32%nat /\ length (SvrSession.fk1 svr) = 32%nat.
Proof.
  intros Hpr Hpf Hps Hsid.
  pose proof (Server_Register_Ok reg s pr Hpr Hpf) as Hreg.
  match type of Hreg with _ = (?v, _) => set (s' := v) in * end.
  assert (Hfile : Server.passwordFiles s' !! UsrSession.Sid session
                  = Some (pwdFile.mk (pendingRegistration.ks pr)
                            (pendingRegistration.ps pr) (pendingRegistration.Ps pr)
                            (Registration.Pu reg) (Registration.aci reg)))
    by (rewrite Hsid; apply lookup_insert_eq).
  destruct (Server_NewSession_Ok session rnd_xs s' _ ps Hfile Hps)
    as (K & HK & Hrun).
  cbn in HK.
  exists s'. do 2 eexists. exists K.
  split; [exact Hreg |]. split; [exact Hrun |]. cbn.
  repeat split; auto using blake2b_256_length.
Qed.

(** X15. The two keys of [deriveHKDFKeys] are 32 bytes each, they are the
    first and the second half of the first 64 bytes of the HKDF stream, and
    [aes.NewCipher] accepts the cipher key. *)
Theorem derived_keys_fit (x : bytes) :
  length (deriveHKDFKeys x).1 = 32%nat /\
  length (deriveHKDFKeys x).2 = 32%nat /\
  (deriveHKDFKeys x).2 ++ (deriveHKDFKeys x).1 = hkdf_sha3_512 x [] [] 64 /\
  aes_NewCipher (deriveHKDFKeys x).2 = Ok (mkBlock (deriveHKDFKeys x).2).
Proof.
  destruct (deriveHKDFKeys_length x) as [Hak Hck].
  split; [exact Hak | split; [exact Hck | split]].
  - unfold deriveHKDFKeys; cbn [fst snd].
    rewrite (take_ge (drop 32 _)).
    + apply take_drop.
    + rewrite length_drop, hkdf_sha3_512_length; lia.
  - now apply aes_NewCipher_32.
Qed.

End MoreOfTheClient.

(** ** The further properties on the small model *)

Section OnTheCases.
Local Existing Instances Toy.group Toy.primitives.
Import Scenario Cases.

Lemma Register_keeps_password_files_witness :
  exists pf,
    Server.passwordFiles busy_server !! sid = Some pf /\
    Server.passwordFiles (Server_Register bare_reg busy_server).1 !! sid
      = Some pf.
Proof.
  eexists. 
  assert (Hpf : Server.passwordFiles busy_server !! sid = Some
    (pwdFile.mk (randomScalar rnd_ks) (Some (randomScalar rnd_ps))
                (ScalarBaseMult (randomScalar rnd_ps))
                (ScalarBaseMult (randomScalar rnd_pu))
                (authCiphertext.mk [] []))) by apply lookup_singleton_eq.
  split; [exact Hpf |].
  exact (Register_keeps_password_files bare_reg busy_server sid _ Hpf).
Defined.

Lemma SessionKey_error_values_witness :
  (Client_SessionKey message password client).2
    = Err (errorString "invalid hmac tag on server-sent c") /\
  (errorString "invalid hmac tag on server-sent c"
     = errorString "invalid hmac tag on server-sent c" \/
   errorString "invalid hmac tag on server-sent c" = json_UnmarshalError \/
   errorString "invalid hmac tag on server-sent c" = errInvalidElementEncoding \/
   errorString "invalid hmac tag on server-sent c" = errInvalidScalarEncoding \/
   errorString "invalid hmac tag on server-sent c"
     = errorString "server authentication failed").
Proof.
  assert (Hrun : (Client_SessionKey message password client).2
                 = Err (errorString "invalid hmac tag on server-sent c"))
    by (vm_compute; reflexivity).
  split; [exact Hrun |].
  exact (SessionKey_error_values message password client _ Hrun).
Defined.

Lemma SessionKey_accepts_only_confirmed_witness :
  exists session SK fk2 K,
    (Client_SessionKey session password client).2 = Ok (SK, fk2) /\
    SvrSession.fk1 session = blake2b_256 K [x01] /\
    SK = blake2b_256 K [x00] /\ fk2 = blake2b_256 K [x02].
Proof.
  assert (Hr : randomScalar rnd_r <> Scalar_Zero) by (cbv; discriminate).
  epose proof (Client_SessionKey_Ok client password (randomScalar rnd_r)
    (randomScalar rnd_xu) (randomScalar rnd_pu) (randomScalar rnd_ks)
    (randomScalar rnd_xs) (ScalarBaseMult (randomScalar rnd_ps)) _ _
    eq_refl eq_refl Hr eq_refl eq_refl) as Hrun.
  apply (f_equal snd) in Hrun. cbn [snd] in Hrun.
  destruct (SessionKey_accepts_only_confirmed _ _ _ _ _ Hrun)
    as (rw' & ca & K & _ & _ & _ & _ & Hfk1 & HSK & Hfk2).
  do 3 eexists. exists K. split; [exact Hrun |].
  split; [exact Hfk1 | split; [exact HSK | exact Hfk2]].
Defined.

Lemma SessionKey_tag_ignores_ciphertext_witness :
  oprfB (SvrSession.Beta (enveloped [])) (Client.r client)
    (sha3_Sum512 (bytes_of_string password)) = Ok rw /\
  authCiphertext.Tag (SvrSession.c (enveloped []))
    = authCiphertext.Ciphertext (SvrSession.c (enveloped []))
      ++ hmac_sha3_256 (deriveHKDFKeys rw).1 [] /\
  (Client_SessionKey
     (SvrSession.mk (SvrSession.Beta (enveloped [])) (SvrSession.Xs (enveloped []))
        (SvrSession.fk1 (enveloped []))
        (authCiphertext.mk
           ([x00] ++ drop (length (authCiphertext.Ciphertext
                                     (SvrSession.c (enveloped []))))
                       (authCiphertext.Tag (SvrSession.c (enveloped []))))
           [x00]))
     password client).2
    <> Err (errorString "invalid hmac tag on server-sent c").
Proof.
  assert (Hrw : oprfB (SvrSession.Beta (enveloped [])) (Client.r client)
                  (sha3_Sum512 (bytes_of_string password)) = Ok rw)
    by reflexivity.
  assert (Htag : authCiphertext.Tag (SvrSession.c (enveloped []))
                 = authCiphertext.Ciphertext (SvrSession.c (enveloped []))
                   ++ hmac_sha3_256 (deriveHKDFKeys rw).1 [])
    by reflexivity.
  split; [exact Hrw | split; [exact Htag |]].
  exact (SessionKey_tag_ignores_ciphertext client (enveloped []) password rw
           [x00] Hrw Htag).
Defined.

Lemma SessionKey_panics_on_envelope_witness :
  oprfB (SvrSession.Beta (enveloped null_ciphertext)) (Client.r client)
    (sha3_Sum512 (bytes_of_string password)) = Ok rw /\
  authCiphertext.Tag (SvrSession.c (enveloped null_ciphertext))
    = authCiphertext.Ciphertext (SvrSession.c (enveloped null_ciphertext))
      ++ hmac_sha3_256 (deriveHKDFKeys rw).1 [] /\
  Client_SessionKey (enveloped null_ciphertext) password client
    = (client, Panic).
Proof.
  assert (Hrw : oprfB (SvrSession.Beta (enveloped null_ciphertext))
                  (Client.r client)
                  (sha3_Sum512 (bytes_of_string password)) = Ok rw)
    by reflexivity.
  assert (Htag : authCiphertext.Tag (SvrSession.c (enveloped null_ciphertext))
                 = authCiphertext.Ciphertext
                     (SvrSession.c (enveloped null_ciphertext))
                   ++ hmac_sha3_256 (deriveHKDFKeys rw).1 [])
    by reflexivity.
  split; [exact Hrw | split; [exact Htag |]].
  apply (SessionKey_panics_on_envelope client (enveloped null_ciphertext)
           password rw Hrw Htag).
  left. vm_compute. reflexivity.
Defined.

Lemma latest_begin_wins_witness :
  Registration.ID bare_reg = sid /\
  Server.passwordFiles NewServer !! sid = None /\
  exists s3,
    Server.passwordFiles s3 !! sid
      = Some (pwdFile.mk (randomScalar rnd_xs) (Some (randomScalar rnd_xu))
                (ScalarBaseMult (randomScalar rnd_xu))
                (Registration.Pu bare_reg) (Registration.aci bare_reg)).
Proof.
  assert (Hid : Registration.ID bare_reg = sid) by reflexivity.
  assert (Hfresh : Server.passwordFiles NewServer !! sid = None)
    by reflexivity.
  split; [exact Hid | split; [exact Hfresh |]].
  destruct (latest_begin_wins NewServer sid rnd_ks rnd_ps rnd_xs rnd_xu
              bare_reg Hid Hfresh) as (s1 & pr1 & s2 & pr2 & s3 & _ & _ & _ & H).
  exists s3. exact H.
Defined.

Lemma NewSession_after_Register_witness :
  let s := Server.mk ∅ (Server.pendingRegistrations busy_server) in
  Server.pendingRegistrations s !! Registration.ID bare_reg
    = Some (pendingRegistration.mk (randomScalar rnd_xs)
              (ScalarBaseMult (randomScalar rnd_xu))
              (Some (randomScalar rnd_xu))) /\
  Server.passwordFiles s !! Registration.ID bare_reg = None /\
  UsrSession.Sid request = Registration.ID bare_reg /\
  exists s' svr SK,
    Server_NewSession request rnd_xs s' = (s', Ok (svr, SK)) /\
    SvrSession.c svr = Registration.aci bare_reg /\ length SK = 32%nat.
Proof.
  intros s.
  assert (Hpr : Server.pendingRegistrations s !! Registration.ID bare_reg
                = Some (pendingRegistration.mk (randomScalar rnd_xs)
                          (ScalarBaseMult (randomScalar rnd_xu))
                          (Some (randomScalar rnd_xu))))
    by apply lookup_singleton_eq.
  assert (Hpf : Server.passwordFiles s !! Registration.ID bare_reg = None)
    by apply lookup_empty.
  assert (Hsid : UsrSession.Sid request = Registration.ID bare_reg)
    by reflexivity.
  split; [exact Hpr | split; [exact Hpf | split; [exact Hsid |]]].
  destruct (NewSession_after_Register bare_reg s _ (randomScalar rnd_xu)
              request rnd_xs Hpr Hpf eq_refl Hsid)
    as (s' & svr & SK & K & _ & Hrun & Hc & _ & _ & _ & _ & _ & Hlen & _).
  exists s', svr, SK. split; [exact Hrun | split; [exact Hc | exact Hlen]].
Defined.

End OnTheCases.
